(** * CustomOvenControl: a shallow embedding of the oven controller sketch

    The sketch [CustomOvenControl.ino] is a bang-bang controller for a bakery
    oven.  Its globals become the record [machine]; every library call that
    touches the outside (pins, LCD, keypad, clock, ADC) is a primitive of a
    small state-and-output monad [M]: it threads the machine and collects the
    list of [event]s a call emits, in program order.  What the outside sends
    in (temperature samples, key presses, the millisecond clock) comes from a
    [world], three streams indexed by the number of reads made so far.

    Data model: avr-gcc, as on the Arduino Mega the pin numbers belong to:
    [char] is 8 bits and signed, [int] 16 bits, [long] 32 bits.  Signed
    overflow is written out as two's-complement wrap-around, which is what
    the generated code does. *)

From Stdlib Require Import ZArith Lia List String Ascii Bool.
From stdpp Require Import base gmap.
Import ListNotations.

Local Open Scope Z_scope.

(** ** Machine integers *)

Definition wrap (bits : Z) (x : Z) : Z :=
  (x + 2 ^ (bits - 1)) mod 2 ^ bits - 2 ^ (bits - 1).

(** [char], [int] and [long] of avr-gcc. *)
Definition to_char (x : Z) : Z := wrap 8 x.
Definition to_int (x : Z) : Z := wrap 16 x.
Definition to_long (x : Z) : Z := wrap 32 x.
Arguments to_int : simpl never.
Arguments to_long : simpl never.

Definition CHAR_MIN : Z := -128.
Definition CHAR_MAX : Z := 127.
Definition INT_MIN : Z := -32768.
Definition INT_MAX : Z := 32767.
Definition LONG_MIN : Z := -2147483648.
Definition LONG_MAX : Z := 2147483647.

Definition in_char (x : Z) : Prop := CHAR_MIN <= x <= CHAR_MAX.
Definition in_int (x : Z) : Prop := INT_MIN <= x <= INT_MAX.
Definition in_long (x : Z) : Prop := LONG_MIN <= x <= LONG_MAX.

(** [char] is signed: codes above 127 are negative. *)
Definition char_code (c : ascii) : Z :=
  let n := Z.of_N (N_of_ascii c) in if n <? 128 then n else n - 256.

(** ** States, pins, events *)

(** The [#define]d states of the oven; [state_code] gives the constants. *)
Inductive OvenState : Set :=
| INPUT_PHASE
| HEATING
| COOLING
| BAKING
| END_OF_BAKING
| VENTILATION.

Definition state_code (s : OvenState) : Z :=
  match s with
  | INPUT_PHASE => 0
  | HEATING => 1
  | COOLING => 2
  | BAKING => 3
  | END_OF_BAKING => 4
  | VENTILATION => 5
  end.

Definition state_eqb (a b : OvenState) : bool := state_code a =? state_code b.

Inductive level : Set := LOW | HIGH.

Inductive pin_mode : Set := INPUT | OUTPUT.

(** Analog pins A0..A2 of the Mega are digital pins 54..56. *)
Definition A0 : Z := 54.
Definition A1 : Z := 55.
Definition A2 : Z := 56.

(** What the sketch sends out, one constructor per library call. *)
Inductive event : Type :=
| PinMode (pin : Z) (m : pin_mode)
| DigitalWrite (pin : Z) (v : level)
| Delay (ms : Z)
| LcdBegin (cols rows : Z)
| LcdSetCursor (col row : Z)
| LcdPrint (s : string)
| LcdPrintChar (c : ascii)
| LcdPrintNum (n : Z)
| LcdClear.

(** ** Keypad *)

Definition ROWS : nat := 4.
Definition COLS : nat := 4.

Definition hexaKeys : list (list ascii) :=
  [ ["1"; "2"; "3"; "A"];
    ["4"; "5"; "6"; "B"];
    ["7"; "8"; "9"; "C"];
    ["*"; "0"; "#"; "D"] ]%char.

(** [NO_KEY] of Keypad.h, the character 0. *)
Definition NO_KEY : ascii := Ascii.zero.

Definition keymap (r c : nat) : ascii := nth c (nth r hexaKeys []) NO_KEY.
Arguments keymap : simpl never.

(** ** The outside world and the machine *)

Record world : Type := World {
  (** the [int] the k-th call of [calculateAverageTemperature] computes from
      the three ADC channels (its floating-point calibration is not modelled) *)
  sensed : nat -> Z;
  (** the key position the k-th call of [getKey] reports, if any *)
  pressed : nat -> option (nat * nat);
  (** the value of the k-th call of [millis] *)
  clock : nat -> Z
}.

Record machine : Type := Machine {
  ovenState : OvenState;
  inputString : string;
  inputTemperature : Z;
  inputTime : Z;
  tempOrTime : Z;
  startTime1 : Z;
  startTime2 : Z;
  pins : gmap Z level;
  samples : nat;
  keyReads : nat;
  clockReads : nat
}.

Definition set_ovenState (v : OvenState) (m : machine) : machine :=
  Machine v (inputString m) (inputTemperature m) (inputTime m) (tempOrTime m)
    (startTime1 m) (startTime2 m) (pins m) (samples m) (keyReads m) (clockReads m).
Definition set_inputString (v : string) (m : machine) : machine :=
  Machine (ovenState m) v (inputTemperature m) (inputTime m) (tempOrTime m)
    (startTime1 m) (startTime2 m) (pins m) (samples m) (keyReads m) (clockReads m).
Definition set_inputTemperature (v : Z) (m : machine) : machine :=
  Machine (ovenState m) (inputString m) v (inputTime m) (tempOrTime m)
    (startTime1 m) (startTime2 m) (pins m) (samples m) (keyReads m) (clockReads m).
Definition set_inputTime (v : Z) (m : machine) : machine :=
  Machine (ovenState m) (inputString m) (inputTemperature m) v (tempOrTime m)
    (startTime1 m) (startTime2 m) (pins m) (samples m) (keyReads m) (clockReads m).
Definition set_tempOrTime (v : Z) (m : machine) : machine :=
  Machine (ovenState m) (inputString m) (inputTemperature m) (inputTime m) v
    (startTime1 m) (startTime2 m) (pins m) (samples m) (keyReads m) (clockReads m).
Definition set_startTime1 (v : Z) (m : machine) : machine :=
  Machine (ovenState m) (inputString m) (inputTemperature m) (inputTime m) (tempOrTime m)
    v (startTime2 m) (pins m) (samples m) (keyReads m) (clockReads m).
Definition set_startTime2 (v : Z) (m : machine) : machine :=
  Machine (ovenState m) (inputString m) (inputTemperature m) (inputTime m) (tempOrTime m)
    (startTime1 m) v (pins m) (samples m) (keyReads m) (clockReads m).
Definition set_pins (v : gmap Z level) (m : machine) : machine :=
  Machine (ovenState m) (inputString m) (inputTemperature m) (inputTime m) (tempOrTime m)
    (startTime1 m) (startTime2 m) v (samples m) (keyReads m) (clockReads m).
Definition set_samples (v : nat) (m : machine) : machine :=
  Machine (ovenState m) (inputString m) (inputTemperature m) (inputTime m) (tempOrTime m)
    (startTime1 m) (startTime2 m) (pins m) v (keyReads m) (clockReads m).
Definition set_keyReads (v : nat) (m : machine) : machine :=
  Machine (ovenState m) (inputString m) (inputTemperature m) (inputTime m) (tempOrTime m)
    (startTime1 m) (startTime2 m) (pins m) (samples m) v (clockReads m).
Definition set_clockReads (v : nat) (m : machine) : machine :=
  Machine (ovenState m) (inputString m) (inputTemperature m) (inputTime m) (tempOrTime m)
    (startTime1 m) (startTime2 m) (pins m) (samples m) (keyReads m) v.

(** The globals as the C++ start-up code leaves them: zero-initialised, the
    state [INPUT_PHASE], no pin written yet. *)
Definition power_on : machine :=
  Machine INPUT_PHASE EmptyString 0 0 0 0 0 ∅ 0%nat 0%nat 0%nat.

(** ** The monad: machine in, result, machine and emitted events out *)

Definition M (A : Type) : Type := machine -> A * machine * list event.

Definition ret {A : Type} (a : A) : M A := fun m => (a, m, []).

Definition bind {A B : Type} (c : M A) (k : A -> M B) : M B :=
  fun m =>
    let '(a, m1, e1) := c m in
    let '(b, m2, e2) := k a m1 in
    (b, m2, e1 ++ e2).

Declare Scope oven_scope.
Delimit Scope oven_scope with oven.
Notation "x <- c ;; k" := (bind c (fun x => k))
  (at level 100, c at next level, k at level 200, right associativity) : oven_scope.
Notation "c ;; k" := (bind c (fun _ => k))
  (at level 100, k at level 200, right associativity) : oven_scope.
Local Open Scope oven_scope.

Definition gets {A : Type} (f : machine -> A) : M A := fun m => (f m, m, []).
Definition modify (f : machine -> machine) : M unit := fun m => (tt, f m, []).
Definition emit (e : event) : M unit := fun m => (tt, m, [e]).

(** The machine and the events of a run. *)
Definition machine_of {A : Type} (r : A * machine * list event) : machine := snd (fst r).
Definition events_of {A : Type} (r : A * machine * list event) : list event := snd r.
Definition value_of {A : Type} (r : A * machine * list event) : A := fst (fst r).

(** ** Library calls *)

(** [String::toInt] is [atol] on the buffer: leading white space, an optional
    sign, then decimal digits up to the first other character, accumulated in
    a [long] without any overflow check. *)
Definition is_digit (c : ascii) : bool :=
  (48 <=? char_code c) && (char_code c <=? 57).

Definition is_space (c : ascii) : bool :=
  (char_code c =? 32) || ((9 <=? char_code c) && (char_code c <=? 13)).

Fixpoint atol_digits (acc : Z) (s : string) : Z :=
  match s with
  | EmptyString => acc
  | String c rest =>
      if is_digit c
      then atol_digits (to_long (acc * 10 + (char_code c - 48))) rest
      else acc
  end.

Fixpoint skip_spaces (s : string) : string :=
  match s with
  | String c rest => if is_space c then skip_spaces rest else s
  | EmptyString => s
  end.

Definition atol (s : string) : Z :=
  match skip_spaces s with
  | String c rest =>
      if char_code c =? 45 then to_long (- atol_digits 0 rest)
      else if char_code c =? 43 then atol_digits 0 rest
      else atol_digits 0 (String c rest)
  | EmptyString => 0
  end.

Definition toInt (s : string) : Z := atol s.

(** [inputString += customKey] *)
Definition append_char (s : string) (c : ascii) : string :=
  (s ++ String c EmptyString)%string.

Section Sketch.

Variable io : world.

Definition digitalWrite (pin : Z) (v : level) : M unit :=
  fun m => (tt, set_pins (<[pin := v]> (pins m)) m, [DigitalWrite pin v]).

Definition pinMode (pin : Z) (md : pin_mode) : M unit := emit (PinMode pin md).
Definition delay (ms : Z) : M unit := emit (Delay ms).

Definition lcd_begin (cols rows : Z) : M unit := emit (LcdBegin cols rows).
Definition lcd_setCursor (col row : Z) : M unit := emit (LcdSetCursor col row).
Definition lcd_print (s : string) : M unit := emit (LcdPrint s).
Definition lcd_print_char (c : ascii) : M unit := emit (LcdPrintChar c).
Definition lcd_print_num (n : Z) : M unit := emit (LcdPrintNum n).
Definition lcd_clear : M unit := emit LcdClear.

(** [millis()] is an [unsigned long]. *)
Definition millis : M Z :=
  fun m => (clock io (clockReads m) mod 2 ^ 32, set_clockReads (S (clockReads m)) m, []).

(** [customKeypad.getKey()]: the character the keymap holds at the reported
    position, [NO_KEY] when nothing is pressed. *)
Definition getKey : M ascii :=
  fun m =>
    (match pressed io (keyReads m) with
     | Some (r, c) => keymap r c
     | None => NO_KEY
     end,
     set_keyReads (S (keyReads m)) m, []).

(** ** The sketch *)

Definition initializeTemperatureSensors : M unit :=
  pinMode A0 INPUT;;
  pinMode A1 INPUT;;
  pinMode A2 INPUT.

Definition initializeHeatingElements : M unit :=
  pinMode 52 OUTPUT;;
  pinMode 50 OUTPUT;;
  pinMode 48 OUTPUT.

(** The parameter is a [char], so the argument is narrowed to 8 bits on the
    call.  The [switch] has cases 0..3 and no default. *)
Definition activateHeatingElements (level : Z) : M unit :=
  let numElements := to_char level in
  if numElements =? 0 then
    digitalWrite 52 LOW;; digitalWrite 50 LOW;; digitalWrite 48 LOW
  else if numElements =? 1 then
    digitalWrite 52 HIGH;; digitalWrite 50 LOW;; digitalWrite 48 LOW
  else if numElements =? 2 then
    digitalWrite 52 HIGH;; digitalWrite 50 HIGH;; digitalWrite 48 LOW
  else if numElements =? 3 then
    digitalWrite 52 HIGH;; digitalWrite 50 HIGH;; digitalWrite 48 HIGH
  else ret tt.

Definition turnFanClockwise : M unit :=
  digitalWrite 22 HIGH;; digitalWrite 24 LOW.

Definition turnOffFan : M unit :=
  digitalWrite 22 LOW;; digitalWrite 24 LOW.

Definition turnFanAntiClockwise : M unit :=
  digitalWrite 22 LOW;; digitalWrite 24 HIGH.

Definition initializeFan : M unit :=
  pinMode 22 OUTPUT;;
  pinMode 24 OUTPUT;;
  turnOffFan.

Definition initializeLCD : M unit :=
  lcd_begin 16 2;;
  lcd_print "Enter temp: ".

Definition initializeKeypad : M unit := ret tt.

Definition setup : M unit :=
  pinMode 26 OUTPUT;;
  initializeTemperatureSensors;;
  initializeHeatingElements;;
  initializeFan;;
  initializeLCD.

(** The result of the ADC averaging, as the [int] the function returns. *)
Definition calculateAverageTemperature : M Z :=
  fun m => (to_int (sensed io (samples m)), set_samples (S (samples m)) m, []).

Definition readInputs : M unit :=
  phase <- gets tempOrTime;;
  if phase =? 0 then
    customKey <- getKey;;
    if negb (char_code customKey =? 0) then
      if (char_code "0" <=? char_code customKey) && (char_code customKey <=? char_code "9") then
        modify (fun m => set_inputString (append_char (inputString m) customKey) m);;
        lcd_print_char customKey
      else if char_code customKey =? char_code "#" then
        pending <- gets inputString;;
        if (0 <? String.length pending)%nat then
          modify (set_inputTemperature (toInt pending));;
          modify (set_inputString EmptyString);;
          modify (set_tempOrTime 1);;
          lcd_clear;;
          lcd_print "Enter time:"
        else ret tt
      else ret tt
    else ret tt
  else if phase =? 1 then
    customKey <- getKey;;
    if negb (char_code customKey =? 0) then
      if (char_code "0" <=? char_code customKey) && (char_code customKey <=? char_code "9") then
        modify (fun m => set_inputString (append_char (inputString m) customKey) m);;
        lcd_print_char customKey
      else if char_code customKey =? char_code "#" then
        now <- millis;;
        modify (set_startTime1 (to_long now));;
        pending <- gets inputString;;
        if (0 <? String.length pending)%nat then
          modify (set_inputTime (toInt pending));;
          modify (set_inputString EmptyString);;
          modify (set_ovenState HEATING);;
          modify (set_tempOrTime 0);;
          lcd_clear
        else ret tt
      else ret tt
    else ret tt
  else ret tt.

(** The two status lines every state but [INPUT_PHASE] prints. *)
Definition show_status (label : string) : M unit :=
  lcd_setCursor 0 0;;
  lcd_print label;;
  lcd_setCursor 0 1;;
  lcd_print "Temp:";;
  t <- calculateAverageTemperature;;
  lcd_print_num t;;
  lcd_print " Time:";;
  remaining <- gets inputTime;;
  lcd_print_num remaining.

Definition performHeating : M unit :=
  show_status "HEATING";;
  t1 <- calculateAverageTemperature;;
  target <- gets inputTemperature;;
  if t1 <? target then
    turnFanClockwise;;
    t2 <- calculateAverageTemperature;;
    if 30 <=? to_long (target - t2) then activateHeatingElements 3
    else
      t3 <- calculateAverageTemperature;;
      if 20 <=? to_long (target - t3) then activateHeatingElements 2
      else activateHeatingElements 1
  else
    t4 <- calculateAverageTemperature;;
    if to_long (target + 5) <? t4 then
      turnOffFan;;
      modify (set_ovenState COOLING);;
      lcd_clear
    else
      modify (set_ovenState BAKING);;
      lcd_clear.

Definition performCooling : M unit :=
  show_status "COOLING";;
  t1 <- calculateAverageTemperature;;
  target <- gets inputTemperature;;
  if to_long (target + 5) <? t1 then
    turnFanAntiClockwise;;
    activateHeatingElements 0
  else
    t2 <- calculateAverageTemperature;;
    if t2 <? target then
      turnOffFan;;
      modify (set_ovenState HEATING);;
      lcd_clear
    else
      modify (set_ovenState BAKING);;
      lcd_clear.

Definition performBaking : M unit :=
  show_status "BAKING";;
  turnOffFan;;
  activateHeatingElements 0;;
  t1 <- calculateAverageTemperature;;
  target <- gets inputTemperature;;
  if to_long (target + 5) <? t1 then
    modify (set_ovenState COOLING);;
    lcd_clear
  else
    t2 <- calculateAverageTemperature;;
    if t2 <? target then
      modify (set_ovenState HEATING);;
      lcd_clear
    else ret tt.

(** [for (char i = 0; i < 5; i++) body]: the body, [n] times. *)
Fixpoint repeatM (n : nat) (body : M unit) : M unit :=
  match n with
  | O => ret tt
  | S k => body;; repeatM k body
  end.

Definition alarm_pulse : M unit :=
  digitalWrite 26 HIGH;;
  delay 300;;
  digitalWrite 26 LOW;;
  delay 300.

Definition performVentilation : M unit :=
  show_status "VENTILATION";;
  t1 <- calculateAverageTemperature;;
  if 30 <=? t1 then
    turnFanAntiClockwise;;
    activateHeatingElements 0
  else
    t2 <- calculateAverageTemperature;;
    if t2 <? 30 then
      repeatM 5 alarm_pulse;;
      modify (set_ovenState END_OF_BAKING);;
      lcd_clear
    else ret tt.

Definition performEndOfBaking : M unit :=
  turnOffFan;;
  activateHeatingElements 0;;
  show_status "END_OF_BAKING";;
  customKey <- getKey;;
  if negb (char_code customKey =? 0) then
    if char_code "#" <=? char_code customKey then
      lcd_clear;;
      lcd_print "Enter temp: ";;
      modify (set_ovenState INPUT_PHASE)
    else ret tt
  else ret tt.

(** The countdown block at the end of [loop]. *)
Definition countdown : M unit :=
  st <- gets ovenState;;
  remaining <- gets inputTime;;
  if negb (state_eqb st INPUT_PHASE) && (0 <? remaining) then
    now <- millis;;
    modify (set_startTime2 (to_long now));;
    t2 <- gets startTime2;;
    t1 <- gets startTime1;;
    if 1000 <=? to_long (t2 - t1) then
      modify (set_startTime1 t2);;
      modify (fun m => set_inputTime (to_long (inputTime m - 1)) m);;
      left <- gets inputTime;;
      if left =? 0 then modify (set_ovenState VENTILATION) else ret tt
    else ret tt
  else ret tt.

Definition dispatch : M unit :=
  st <- gets ovenState;;
  match st with
  | INPUT_PHASE => readInputs
  | HEATING => performHeating
  | COOLING => performCooling
  | BAKING => performBaking
  | VENTILATION => performVentilation
  | END_OF_BAKING => performEndOfBaking
  end.

Definition loop : M unit :=
  dispatch;;
  countdown.

(** [n] passes through [loop], as the Arduino core calls it for ever. *)
Fixpoint run (n : nat) : M unit :=
  match n with
  | O => ret tt
  | S k => loop;; run k
  end.

(** [n] calls of one state's handler in a row. *)
Definition invoke (n : nat) (handler : M unit) : M unit := repeatM n handler.

End Sketch.

(** ** Observations and test worlds *)

(** Every temperature sample reads [T]. *)
Definition steady (io : world) (T : Z) : Prop := forall k, sensed io k = T.

(** The heating-element lines (pins 52, 50, 48) and the fan lines (22, 24). *)
Definition heating_lines (p : gmap Z level) : option level * option level * option level :=
  (p !! 52, p !! 50, p !! 48).

Definition fan_lines (p : gmap Z level) : option level * option level :=
  (p !! 22, p !! 24).

(** The events of [show_status] when the sample is [T] and the countdown [t]. *)
Definition status_events (label : string) (T t : Z) : list event :=
  [LcdSetCursor 0 0; LcdPrint label; LcdSetCursor 0 1; LcdPrint "Temp:";
   LcdPrintNum T; LcdPrint " Time:"; LcdPrintNum t].

(** One pulse of the buzzer on pin 26. *)
Definition pulse_events : list event :=
  [DigitalWrite 26 HIGH; Delay 300; DigitalWrite 26 LOW; Delay 300].

(** What a handler leaves alone: the pending entry, the setpoint, the
    countdown, the entry phase and the two time stamps. *)
Definition same_entry (m m' : machine) : Prop :=
  inputString m' = inputString m /\
  inputTemperature m' = inputTemperature m /\
  inputTime m' = inputTime m /\
  tempOrTime m' = tempOrTime m /\
  startTime1 m' = startTime1 m /\
  startTime2 m' = startTime2 m.

(** The three states of an active bake. *)
Definition regulating (s : OvenState) : Prop :=
  s = HEATING \/ s = COOLING \/ s = BAKING.

(** The [long] globals hold [long] values. *)
Definition well_typed (m : machine) : Prop :=
  in_long (inputTemperature m) /\ in_long (inputTime m) /\
  in_long (startTime1 m) /\ in_long (startTime2 m).

(** A world that is given by finite scripts: when a script runs out the
    sensor keeps its last value [T], no key is pressed and the clock stands
    at [now]. *)
Definition scripted (temps : list Z) (T : Z) (keys : list (option (nat * nat)))
    (ticks : list Z) (now : Z) : world :=
  World (fun k => nth k temps T) (fun k => nth k keys None) (fun k => nth k ticks now).

(** A quiet world: constant temperature, no key, the clock at [now]. *)
Definition quiet (T now : Z) : world := scripted [] T [] [] now.

(** Positions of the keys on the pad. *)
Definition key_hash : option (nat * nat) := Some (3, 2)%nat.
Definition key_0 : option (nat * nat) := Some (3, 1)%nat.
Definition key_1 : option (nat * nat) := Some (0, 0)%nat.
Definition key_2 : option (nat * nat) := Some (0, 1)%nat.
Definition key_3 : option (nat * nat) := Some (0, 2)%nat.
Definition key_4 : option (nat * nat) := Some (1, 0)%nat.
Definition key_6 : option (nat * nat) := Some (1, 2)%nat.
Definition key_7 : option (nat * nat) := Some (2, 0)%nat.
Definition key_8 : option (nat * nat) := Some (2, 1)%nat.

(** The stamp [startTime2] takes when the countdown block reads the clock. *)
Definition stamp (io : world) (m : machine) : Z :=
  to_long (clock io (clockReads m) mod 2 ^ 32).

(** The pins after fan off and heating power 0. *)
Definition all_off (p : gmap Z level) : gmap Z level :=
  <[48 := LOW]> (<[50 := LOW]> (<[52 := LOW]> (<[24 := LOW]> (<[22 := LOW]> p)))).

(** The pending entry holds digits only. *)
Fixpoint digits_only (s : string) : bool :=
  match s with
  | EmptyString => true
  | String c rest => is_digit c && digits_only rest
  end.

(** The characters of a sequence of key positions, as [getKey] reports them. *)
Fixpoint typed (ks : list (nat * nat)) : string :=
  match ks with
  | [] => EmptyString
  | (r, c) :: rest => String (keymap r c) (typed rest)
  end.

(** The pin map after an event: only [digitalWrite] changes it. *)
Definition apply_event (p : gmap Z level) (e : event) : gmap Z level :=
  match e with
  | DigitalWrite pin v => <[pin := v]> p
  | _ => p
  end.

(** Both fan lines HIGH at once. *)
Definition fan_short (p : gmap Z level) : bool :=
  match p !! 22, p !! 24 with
  | Some HIGH, Some HIGH => true
  | _, _ => false
  end.

(** The fan lines are never both HIGH, neither at [p] nor after any prefix
    of the events. *)
Fixpoint never_short (p : gmap Z level) (evs : list event) : bool :=
  negb (fan_short p) &&
  match evs with
  | [] => true
  | e :: rest => never_short (apply_event p e) rest
  end.

(** A line that is not driven HIGH. *)
Definition not_high (v : option level) : Prop := v <> Some HIGH.

(** No heating element and no fan line is HIGH. *)
Definition actuators_idle (p : gmap Z level) : Prop :=
  not_high (p !! 52) /\ not_high (p !! 50) /\ not_high (p !! 48) /\
  not_high (p !! 22) /\ not_high (p !! 24).

(** The machine when [setup] returns. *)
Definition booted : machine := machine_of (setup power_on).

(** * Proofs *)

(** ** Machine arithmetic *)

Lemma to_int_id (x : Z) : in_int x -> to_int x = x.
Proof.
  unfold in_int, INT_MIN, INT_MAX, to_int, wrap. intros H.
  change (2 ^ (16 - 1)) with 32768. change (2 ^ 16) with 65536.
  rewrite Z.mod_small; lia.
Qed.

Lemma to_char_id (x : Z) : in_char x -> to_char x = x.
Proof.
  unfold in_char, CHAR_MIN, CHAR_MAX, to_char, wrap. intros H.
  change (2 ^ (8 - 1)) with 128. change (2 ^ 8) with 256.
  rewrite Z.mod_small; lia.
Qed.

Lemma to_long_id (x : Z) : in_long x -> to_long x = x.
Proof.
  unfold in_long, LONG_MIN, LONG_MAX, to_long, wrap. intros H.
  change (2 ^ (32 - 1)) with 2147483648. change (2 ^ 32) with 4294967296.
  rewrite Z.mod_small; lia.
Qed.

Lemma to_long_range (x : Z) : in_long (to_long x).
Proof.
  unfold in_long, LONG_MIN, LONG_MAX, to_long, wrap.
  change (2 ^ (32 - 1)) with 2147483648. change (2 ^ 32) with 4294967296.
  pose proof (Z.mod_pos_bound (x + 2147483648) 4294967296). lia.
Qed.

Lemma to_int_range (x : Z) : in_int (to_int x).
Proof.
  unfold in_int, INT_MIN, INT_MAX, to_int, wrap.
  change (2 ^ (16 - 1)) with 32768. change (2 ^ 16) with 65536.
  pose proof (Z.mod_pos_bound (x + 32768) 65536). lia.
Qed.

Lemma in_int_long (x : Z) : in_int x -> in_long x.
Proof. unfold in_int, in_long, INT_MIN, INT_MAX, LONG_MIN, LONG_MAX. lia. Qed.

(** ** Tactics *)

Ltac ranges := unfold in_int, in_long, INT_MIN, INT_MAX, LONG_MIN, LONG_MAX in *.

(** Settle the first conditional of the goal by arithmetic. *)
Ltac cond_true :=
  match goal with
  | |- context [if ?c then _ else _] =>
      let H := fresh in
      assert (H : c = true)
        by (first [apply Z.ltb_lt | apply Z.leb_le | apply Z.eqb_eq]; ranges; lia);
      rewrite H; clear H
  end.

Ltac cond_false :=
  match goal with
  | |- context [if ?c then _ else _] =>
      let H := fresh in
      assert (H : c = false)
        by (first [apply Z.ltb_ge | apply Z.leb_gt | apply Z.eqb_neq]; ranges; lia);
      rewrite H; clear H
  end.

(** Split on every conditional the goal still has. *)
Ltac split_conds :=
  repeat match goal with
         | |- context [if ?c then _ else _] => destruct c eqn:?; cbn
         end.

(** Evaluate the character constants of the sketch. *)
Ltac char_codes :=
  change (char_code "#") with 35 in *;
  change (char_code "0") with 48 in *;
  change (char_code "9") with 57 in *.

(** The four calls the handlers make, with the literal narrowed. *)
Ltac heating_literals :=
  change (activateHeatingElements 0)
    with (digitalWrite 52 LOW;; digitalWrite 50 LOW;; digitalWrite 48 LOW)%oven in *;
  change (activateHeatingElements 1)
    with (digitalWrite 52 HIGH;; digitalWrite 50 LOW;; digitalWrite 48 LOW)%oven in *;
  change (activateHeatingElements 2)
    with (digitalWrite 52 HIGH;; digitalWrite 50 HIGH;; digitalWrite 48 LOW)%oven in *;
  change (activateHeatingElements 3)
    with (digitalWrite 52 HIGH;; digitalWrite 50 HIGH;; digitalWrite 48 HIGH)%oven in *.

(** Replace the samples of a steady sensor by their value. *)
Ltac steady_samples Hs Hi :=
  rewrite ?Hs; rewrite ?(to_int_id _ Hi).

(** ** The handlers under a steady sensor *)

Section Steady.

Variable io : world.
Variable T : Z.
Hypothesis Hsteady : steady io T.
Hypothesis Hint : in_int T.

Lemma sample_steady (m : machine) :
  calculateAverageTemperature io m = (T, set_samples (S (samples m)) m, []).
Proof.
  unfold calculateAverageTemperature. now rewrite Hsteady, (to_int_id T Hint).
Qed.

(** Below the target the fan turns clockwise and the number of elements is
    chosen by the [long] difference, as the machine computes it. *)
Lemma performHeating_below (m : machine) :
  T < inputTemperature m ->
  let d := to_long (inputTemperature m - T) in
  let n := if 30 <=? d then 3 else if 20 <=? d then 2 else 1 in
  performHeating io m =
    (tt,
     set_samples ((if 30 <=? d then 3 else 4) + samples m)
       (set_pins
          (<[48 := if 3 <=? n then HIGH else LOW]>
             (<[50 := if 2 <=? n then HIGH else LOW]>
                (<[52 := HIGH]> (<[24 := LOW]> (<[22 := HIGH]> (pins m)))))) m),
     status_events "HEATING" T (inputTime m) ++
     [DigitalWrite 22 HIGH; DigitalWrite 24 LOW;
      DigitalWrite 52 HIGH;
      DigitalWrite 50 (if 2 <=? n then HIGH else LOW);
      DigitalWrite 48 (if 3 <=? n then HIGH else LOW)]).
Proof.
  intros Hlt d n. subst n.
  unfold performHeating, show_status. heating_literals. unfold bind. cbn.
  steady_samples Hsteady Hint. cond_true. cbn.
  steady_samples Hsteady Hint. fold d.
  destruct (30 <=? d) eqn:H30; cbn.
  - reflexivity.
  - steady_samples Hsteady Hint. fold d.
    destruct (20 <=? d) eqn:H20; reflexivity.
Qed.

Lemma performHeating_above (m : machine) :
  in_long (inputTemperature m) ->
  inputTemperature m + 5 < T ->
  performHeating io m =
    (tt,
     set_samples (3 + samples m)
       (set_ovenState COOLING
          (set_pins (<[24 := LOW]> (<[22 := LOW]> (pins m))) m)),
     status_events "HEATING" T (inputTime m) ++
     [DigitalWrite 22 LOW; DigitalWrite 24 LOW; LcdClear]).
Proof.
  intros Hl Hgt.
  unfold performHeating, show_status. heating_literals. unfold bind. cbn.
  steady_samples Hsteady Hint. cond_false. cbn.
  steady_samples Hsteady Hint.
  rewrite (to_long_id (inputTemperature m + 5)) by (ranges; lia).
  cond_true. reflexivity.
Qed.

Lemma performHeating_band (m : machine) :
  inputTemperature m <= T <= inputTemperature m + 5 ->
  performHeating io m =
    (tt, set_samples (3 + samples m) (set_ovenState BAKING m),
     status_events "HEATING" T (inputTime m) ++ [LcdClear]).
Proof.
  intros Hb.
  unfold performHeating, show_status. heating_literals. unfold bind. cbn.
  steady_samples Hsteady Hint. cond_false. cbn.
  steady_samples Hsteady Hint.
  rewrite (to_long_id (inputTemperature m + 5)) by (ranges; lia).
  cond_false. reflexivity.
Qed.

Lemma performCooling_above (m : machine) :
  in_long (inputTemperature m) ->
  inputTemperature m + 5 < T ->
  performCooling io m =
    (tt,
     set_samples (2 + samples m)
       (set_pins
          (<[48 := LOW]> (<[50 := LOW]> (<[52 := LOW]>
             (<[24 := HIGH]> (<[22 := LOW]> (pins m)))))) m),
     status_events "COOLING" T (inputTime m) ++
     [DigitalWrite 22 LOW; DigitalWrite 24 HIGH;
      DigitalWrite 52 LOW; DigitalWrite 50 LOW; DigitalWrite 48 LOW]).
Proof.
  intros Hl Hgt.
  unfold performCooling, show_status. heating_literals. unfold bind. cbn.
  steady_samples Hsteady Hint.
  rewrite (to_long_id (inputTemperature m + 5)) by (ranges; lia).
  cond_true. reflexivity.
Qed.

Lemma performCooling_below (m : machine) :
  in_long (inputTemperature m + 5) ->
  T < inputTemperature m ->
  performCooling io m =
    (tt,
     set_samples (3 + samples m)
       (set_ovenState HEATING
          (set_pins (<[24 := LOW]> (<[22 := LOW]> (pins m))) m)),
     status_events "COOLING" T (inputTime m) ++
     [DigitalWrite 22 LOW; DigitalWrite 24 LOW; LcdClear]).
Proof.
  intros Hl Hlt.
  unfold performCooling, show_status. heating_literals. unfold bind. cbn.
  steady_samples Hsteady Hint.
  rewrite (to_long_id (inputTemperature m + 5)) by assumption.
  cond_false. cbn. steady_samples Hsteady Hint. cond_true. reflexivity.
Qed.

Lemma performCooling_band (m : machine) :
  inputTemperature m <= T <= inputTemperature m + 5 ->
  performCooling io m =
    (tt, set_samples (3 + samples m) (set_ovenState BAKING m),
     status_events "COOLING" T (inputTime m) ++ [LcdClear]).
Proof.
  intros Hb.
  unfold performCooling, show_status. heating_literals. unfold bind. cbn.
  steady_samples Hsteady Hint.
  rewrite (to_long_id (inputTemperature m + 5)) by (ranges; lia).
  cond_false. cbn. steady_samples Hsteady Hint. cond_false. reflexivity.
Qed.

Lemma performBaking_band (m : machine) :
  inputTemperature m <= T <= inputTemperature m + 5 ->
  performBaking io m =
    (tt,
     set_samples (3 + samples m)
       (set_pins
          (<[48 := LOW]> (<[50 := LOW]> (<[52 := LOW]>
             (<[24 := LOW]> (<[22 := LOW]> (pins m)))))) m),
     status_events "BAKING" T (inputTime m) ++
     [DigitalWrite 22 LOW; DigitalWrite 24 LOW;
      DigitalWrite 52 LOW; DigitalWrite 50 LOW; DigitalWrite 48 LOW]).
Proof.
  intros Hb.
  unfold performBaking, show_status. heating_literals. unfold bind. cbn.
  steady_samples Hsteady Hint.
  rewrite (to_long_id (inputTemperature m + 5)) by (ranges; lia).
  cond_false. cbn. steady_samples Hsteady Hint. cond_false. reflexivity.
Qed.


Lemma performVentilation_hot (m : machine) :
  30 <= T ->
  performVentilation io m =
    (tt,
     set_samples (2 + samples m)
       (set_pins
          (<[48 := LOW]> (<[50 := LOW]> (<[52 := LOW]>
             (<[24 := HIGH]> (<[22 := LOW]> (pins m)))))) m),
     status_events "VENTILATION" T (inputTime m) ++
     [DigitalWrite 22 LOW; DigitalWrite 24 HIGH;
      DigitalWrite 52 LOW; DigitalWrite 50 LOW; DigitalWrite 48 LOW]).
Proof.
  intros Hhot.
  unfold performVentilation, show_status. heating_literals. unfold bind. cbn.
  steady_samples Hsteady Hint. cond_true. reflexivity.
Qed.

Lemma performVentilation_cool (m : machine) :
  T < 30 ->
  performVentilation io m =
    (tt,
     set_samples (3 + samples m)
       (set_ovenState END_OF_BAKING
          (set_pins (<[26 := LOW]> (pins m)) m)),
     status_events "VENTILATION" T (inputTime m) ++
     concat (repeat pulse_events 5) ++ [LcdClear]).
Proof.
  intros Hcool.
  unfold performVentilation, show_status. heating_literals. unfold bind. cbn.
  steady_samples Hsteady Hint. cond_false. cbn.
  steady_samples Hsteady Hint. cond_true. cbn.
  rewrite !insert_insert_eq. reflexivity.
Qed.

End Steady.

(** ** The handlers under any sensor: what they leave alone, where they go *)

Ltac run_handler :=
  unfold performHeating, performCooling, performBaking, performVentilation,
    performEndOfBaking, show_status;
  heating_literals; unfold bind; cbn; split_conds.

Lemma performHeating_entry (io : world) (m : machine) :
  same_entry m (machine_of (performHeating io m)).
Proof. run_handler; repeat split. Qed.

Lemma performCooling_entry (io : world) (m : machine) :
  same_entry m (machine_of (performCooling io m)).
Proof. run_handler; repeat split. Qed.

Lemma performBaking_entry (io : world) (m : machine) :
  same_entry m (machine_of (performBaking io m)).
Proof. run_handler; repeat split. Qed.

Lemma performVentilation_entry (io : world) (m : machine) :
  same_entry m (machine_of (performVentilation io m)).
Proof. run_handler; repeat split. Qed.

Lemma performEndOfBaking_entry (io : world) (m : machine) :
  same_entry m (machine_of (performEndOfBaking io m)).
Proof. run_handler; repeat split. Qed.

Lemma performHeating_next (io : world) (m : machine) :
  let s := ovenState (machine_of (performHeating io m)) in
  s = ovenState m \/ s = COOLING \/ s = BAKING.
Proof. run_handler; auto. Qed.

Lemma performCooling_next (io : world) (m : machine) :
  let s := ovenState (machine_of (performCooling io m)) in
  s = ovenState m \/ s = HEATING \/ s = BAKING.
Proof. run_handler; auto. Qed.

Lemma performBaking_next (io : world) (m : machine) :
  let s := ovenState (machine_of (performBaking io m)) in
  s = ovenState m \/ s = COOLING \/ s = HEATING.
Proof. run_handler; auto. Qed.

Lemma performVentilation_next (io : world) (m : machine) :
  let s := ovenState (machine_of (performVentilation io m)) in
  s = ovenState m \/ s = END_OF_BAKING.
Proof. run_handler; auto. Qed.

Lemma performEndOfBaking_next (io : world) (m : machine) :
  let s := ovenState (machine_of (performEndOfBaking io m)) in
  s = ovenState m \/ s = INPUT_PHASE.
Proof. run_handler; auto. Qed.

(** Outside [INPUT_PHASE] the dispatch leaves entry, setpoint, countdown and
    time stamps alone. *)
Lemma dispatch_entry (io : world) (m : machine) :
  ovenState m <> INPUT_PHASE ->
  same_entry m (machine_of (dispatch io m)).
Proof.
  intros Hst. unfold dispatch, bind, gets. cbn.
  destruct (ovenState m) eqn:E; try congruence.
  - destruct (performHeating io m) as [[u m1] e1] eqn:R.
    pose proof (performHeating_entry io m) as H. now rewrite R in H.
  - destruct (performCooling io m) as [[u m1] e1] eqn:R.
    pose proof (performCooling_entry io m) as H. now rewrite R in H.
  - destruct (performBaking io m) as [[u m1] e1] eqn:R.
    pose proof (performBaking_entry io m) as H. now rewrite R in H.
  - destruct (performEndOfBaking io m) as [[u m1] e1] eqn:R.
    pose proof (performEndOfBaking_entry io m) as H. now rewrite R in H.
  - destruct (performVentilation io m) as [[u m1] e1] eqn:R.
    pose proof (performVentilation_entry io m) as H. now rewrite R in H.
Qed.

Lemma bind_gets {A B : Type} (f : machine -> A) (k : A -> M B) (m : machine) :
  bind (gets f) k m = k (f m) m.
Proof. unfold bind, gets. destruct (k (f m) m) as [[b m2] e2]. reflexivity. Qed.

(** The dispatch as the handler of the current state. *)
Lemma dispatch_handler (io : world) (m : machine) :
  dispatch io m =
    match ovenState m with
    | INPUT_PHASE => readInputs io m
    | HEATING => performHeating io m
    | COOLING => performCooling io m
    | BAKING => performBaking io m
    | VENTILATION => performVentilation io m
    | END_OF_BAKING => performEndOfBaking io m
    end.
Proof.
  unfold dispatch. rewrite bind_gets. destruct (ovenState m); reflexivity.
Qed.

(** ** The countdown block *)

Lemma countdown_idle (io : world) (m : machine) :
  ovenState m = INPUT_PHASE \/ inputTime m <= 0 ->
  countdown io m = (tt, m, []).
Proof.
  intros H. unfold countdown, bind, gets. cbn.
  destruct H as [-> | H]; [reflexivity |].
  assert (Hz : (0 <? inputTime m) = false) by (apply Z.ltb_ge; lia).
  rewrite Hz, andb_false_r. reflexivity.
Qed.

Lemma countdown_waiting (io : world) (m : machine) :
  ovenState m <> INPUT_PHASE -> 0 < inputTime m ->
  to_long (stamp io m - startTime1 m) < 1000 ->
  countdown io m =
    (tt, set_startTime2 (stamp io m) (set_clockReads (S (clockReads m)) m), []).
Proof.
  intros Hst Hpos Hw. unfold countdown, bind, gets. cbn.
  assert (Hs : state_eqb (ovenState m) INPUT_PHASE = false)
    by (destruct (ovenState m); try reflexivity; congruence).
  rewrite Hs. cbn. cond_true. cbn. fold (stamp io m). cond_false. reflexivity.
Qed.

Lemma countdown_tick (io : world) (m : machine) :
  ovenState m <> INPUT_PHASE -> 0 < inputTime m ->
  1000 <= to_long (stamp io m - startTime1 m) ->
  countdown io m =
    (tt,
     (if to_long (inputTime m - 1) =? 0 then set_ovenState VENTILATION else fun x => x)
       (set_inputTime (to_long (inputTime m - 1))
          (set_startTime1 (stamp io m)
             (set_startTime2 (stamp io m) (set_clockReads (S (clockReads m)) m)))),
     []).
Proof.
  intros Hst Hpos Hw. unfold countdown, bind, gets. cbn.
  assert (Hs : state_eqb (ovenState m) INPUT_PHASE = false)
    by (destruct (ovenState m); try reflexivity; congruence).
  rewrite Hs. cbn. cond_true. cbn. fold (stamp io m). cond_true. cbn.
  destruct (to_long (inputTime m - 1) =? 0); reflexivity.
Qed.

(** [loop] as its two halves. *)
Lemma loop_halves (io : world) (m : machine) :
  machine_of (loop io m) = machine_of (countdown io (machine_of (dispatch io m))) /\
  events_of (loop io m) =
    events_of (dispatch io m) ++ events_of (countdown io (machine_of (dispatch io m))).
Proof.
  unfold loop, bind.
  destruct (dispatch io m) as [[u m1] e1].
  change (machine_of (u, m1, e1)) with m1. change (events_of (u, m1, e1)) with e1.
  destruct (countdown io m1) as [[u2 m2] e2]. split; reflexivity.
Qed.

Lemma countdown_silent (io : world) (m : machine) :
  events_of (countdown io m) = [].
Proof.
  unfold countdown, bind, gets, modify, millis, ret. cbn. split_conds; reflexivity.
Qed.

Lemma run_succ (io : world) (n : nat) (m : machine) :
  machine_of (run io (S n) m) = machine_of (run io n (machine_of (loop io m))).
Proof.
  cbn [run]. unfold bind.
  destruct (loop io m) as [[u m1] e1].
  change (machine_of (u, m1, e1)) with m1.
  destruct (run io n m1) as [[u2 m2] e2]. reflexivity.
Qed.

(** ** Pins *)

Lemma all_off_twice (p : gmap Z level) : all_off (all_off p) = all_off p.
Proof.
  unfold all_off. apply map_eq. intros i.
  rewrite !lookup_insert. repeat case_decide; reflexivity.
Qed.

Lemma all_off_lines (p : gmap Z level) :
  fan_lines (all_off p) = (Some LOW, Some LOW) /\
  heating_lines (all_off p) = (Some LOW, Some LOW, Some LOW).
Proof.
  unfold fan_lines, heating_lines, all_off.
  rewrite !lookup_insert. repeat case_decide; try lia. split; reflexivity.
Qed.

(** ** Keys *)

Lemma keymap_code (r c : nat) :
  (r < 4)%nat -> (c < 4)%nat -> 35 <= char_code (keymap r c).
Proof.
  intros Hr Hc.
  destruct r as [|[|[|[|r]]]]; try lia;
    destruct c as [|[|[|[|c]]]]; try lia; vm_compute; discriminate.
Qed.

(** ** Claims *)

(** C10.  A call of [activateHeatingElements] with a [char] level other
    than 0, 1, 2 or 3 matches no case of the switch: it writes no pin, emits
    nothing and returns the machine as it was, so the three heating-element
    lines keep their levels. *)
Theorem activateHeatingElements_out_of_range (n : Z) (m : machine) :
  in_char n ->
  n <> 0 -> n <> 1 -> n <> 2 -> n <> 3 ->
  activateHeatingElements n m = (tt, m, []) /\
  heating_lines (pins (machine_of (activateHeatingElements n m))) = heating_lines (pins m).
Proof.
  intros Hc H0 H1 H2 H3.
  assert (E : activateHeatingElements n m = (tt, m, [])).
  { unfold activateHeatingElements. rewrite (to_char_id n Hc). cbv zeta.
    repeat cond_false. reflexivity. }
  rewrite E. split; reflexivity.
Qed.

Lemma activateHeatingElements_out_of_range_witness :
  activateHeatingElements 4 booted = (tt, booted, []) /\
  heating_lines (pins (machine_of (activateHeatingElements 4 booted))) =
    heating_lines (pins booted).
Proof.
  apply (activateHeatingElements_out_of_range 4 booted);
    [unfold in_char, CHAR_MIN, CHAR_MAX; lia | lia ..].
Defined.

Lemma invoke_succ (n : nat) (h : M unit) (m : machine) :
  machine_of (invoke (S n) h m) = machine_of (invoke n h (machine_of (h m))).
Proof.
  unfold invoke. cbn [repeatM]. unfold bind.
  destruct (h m) as [[u m1] e1].
  change (machine_of (u, m1, e1)) with m1.
  destruct (repeatM n h m1) as [[u2 m2] e2]. reflexivity.
Qed.

(** In the band, [n] invocations of [performBaking] keep state, setpoint and
    countdown, and from the first invocation on the pins are [all_off]. *)
Lemma performBaking_invoke (io : world) (T : Z) (n : nat) :
  steady io T -> in_int T ->
  forall m : machine,
    inputTemperature m <= T <= inputTemperature m + 5 ->
    let m' := machine_of (invoke n (performBaking io) m) in
    ovenState m' = ovenState m /\
    inputTemperature m' = inputTemperature m /\
    inputTime m' = inputTime m /\
    ((1 <= n)%nat -> pins m' = all_off (pins m)).
Proof.
  intros Hs Hi. induction n as [|n IH]; intros m Hb.
  - cbn. repeat split. lia.
  - set (m1 := set_samples (3 + samples m) (set_pins (all_off (pins m)) m)).
    assert (E : machine_of (performBaking io m) = m1)
      by (rewrite (performBaking_band io T Hs Hi m Hb); reflexivity).
    cbv zeta. rewrite invoke_succ, E.
    destruct (IH m1 Hb) as (Ho & Ht & Hc & Hp).
    split; [exact Ho | split; [exact Ht | split; [exact Hc |]]].
    intros _. destruct n as [|n].
    + reflexivity.
    + rewrite Hp by lia. exact (all_off_twice (pins m)).
Qed.

(** C6.  With every sample at a constant [T] in the band [S, S+5], however
    many times [performBaking] has been invoked, the state is still [BAKING]
    and the next invocation leaves it [BAKING] and emits the same commands:
    the status lines, fan off (pins 22, 24 LOW) and heating power 0 (pins 52,
    50, 48 LOW); from the second invocation on the pins do not change. *)
Theorem performBaking_idempotent (io : world) (T : Z) (m : machine) (n : nat) :
  steady io T -> in_int T ->
  ovenState m = BAKING ->
  inputTemperature m <= T <= inputTemperature m + 5 ->
  let before := machine_of (invoke n (performBaking io) m) in
  let r := performBaking io before in
  ovenState before = BAKING /\
  ovenState (machine_of r) = BAKING /\
  events_of r =
    status_events "BAKING" T (inputTime m) ++
    [DigitalWrite 22 LOW; DigitalWrite 24 LOW;
     DigitalWrite 52 LOW; DigitalWrite 50 LOW; DigitalWrite 48 LOW] /\
  fan_lines (pins (machine_of r)) = (Some LOW, Some LOW) /\
  heating_lines (pins (machine_of r)) = (Some LOW, Some LOW, Some LOW) /\
  ((1 <= n)%nat -> pins (machine_of r) = pins before).
Proof.
  intros Hs Hi Hst Hb before r.
  destruct (performBaking_invoke io T n Hs Hi m Hb) as (Ho & Ht & Hc & Hp).
  fold before in Ho, Ht, Hc, Hp.
  assert (Hb' : inputTemperature before <= T <= inputTemperature before + 5)
    by (rewrite Ht; exact Hb).
  subst r. rewrite (performBaking_band io T Hs Hi before Hb').
  cbn [machine_of events_of fst snd ovenState pins set_samples set_pins].
  fold (all_off (pins before)).
  destruct (all_off_lines (pins before)) as [Hf Hh].
  rewrite Hc. repeat split; try assumption; try congruence.
  intros Hn. rewrite (Hp Hn). apply all_off_twice.
Qed.

Lemma performBaking_idempotent_witness :
  let io := quiet 182 0 in
  let m := set_inputTemperature 180 (set_ovenState BAKING booted) in
  let before := machine_of (invoke 3 (performBaking io) m) in
  let r := performBaking io before in
  ovenState before = BAKING /\
  ovenState (machine_of r) = BAKING /\
  events_of r =
    status_events "BAKING" 182 (inputTime m) ++
    [DigitalWrite 22 LOW; DigitalWrite 24 LOW;
     DigitalWrite 52 LOW; DigitalWrite 50 LOW; DigitalWrite 48 LOW] /\
  fan_lines (pins (machine_of r)) = (Some LOW, Some LOW) /\
  heating_lines (pins (machine_of r)) = (Some LOW, Some LOW, Some LOW) /\
  ((1 <= 3)%nat -> pins (machine_of r) = pins before).
Proof.
  apply (performBaking_idempotent (quiet 182 0) 182
           (set_inputTemperature 180 (set_ovenState BAKING booted)) 3).
  - intros k. destruct k; reflexivity.
  - unfold in_int, INT_MIN, INT_MAX. lia.
  - reflexivity.
  - cbn. lia.
Defined.

(** C5.  In [VENTILATION] with every sample at [T]: when [T >= 30] the
    handler drives the fan in reverse (pin 22 LOW, pin 24 HIGH), sets heating
    power 0 and the state stays [VENTILATION]; when [T < 30] it emits exactly
    five buzzer pulses (pin 26 HIGH, 300 ms, LOW, 300 ms), then clears the
    display and the state is [END_OF_BAKING]. *)
Theorem performVentilation_cases (io : world) (T : Z) (m : machine) :
  steady io T -> in_int T ->
  ovenState m = VENTILATION ->
  let r := performVentilation io m in
  (30 <= T ->
     ovenState (machine_of r) = VENTILATION /\
     events_of r =
       status_events "VENTILATION" T (inputTime m) ++
       [DigitalWrite 22 LOW; DigitalWrite 24 HIGH;
        DigitalWrite 52 LOW; DigitalWrite 50 LOW; DigitalWrite 48 LOW] /\
     fan_lines (pins (machine_of r)) = (Some LOW, Some HIGH) /\
     heating_lines (pins (machine_of r)) = (Some LOW, Some LOW, Some LOW)) /\
  (T < 30 ->
     ovenState (machine_of r) = END_OF_BAKING /\
     events_of r =
       status_events "VENTILATION" T (inputTime m) ++
       concat (repeat pulse_events 5) ++ [LcdClear] /\
     heating_lines (pins (machine_of r)) = heating_lines (pins m) /\
     fan_lines (pins (machine_of r)) = fan_lines (pins m)).
Proof.
  intros Hs Hi Hst r. subst r. split; intros HT.
  - rewrite (performVentilation_hot io T Hs Hi m HT).
    cbn [machine_of events_of fst snd ovenState pins set_samples set_pins].
    unfold fan_lines, heating_lines.
    rewrite !lookup_insert. repeat case_decide; try lia.
    repeat split; assumption.
  - rewrite (performVentilation_cool io T Hs Hi m HT).
    cbn [machine_of events_of fst snd ovenState pins set_samples set_pins set_ovenState].
    unfold fan_lines, heating_lines.
    rewrite !lookup_insert. repeat case_decide; try lia.
    repeat split.
Qed.

Lemma performVentilation_cases_witness :
  let io := quiet 25 0 in
  let m := set_ovenState VENTILATION booted in
  let r := performVentilation io m in
  (30 <= 25 ->
     ovenState (machine_of r) = VENTILATION /\
     events_of r =
       status_events "VENTILATION" 25 (inputTime m) ++
       [DigitalWrite 22 LOW; DigitalWrite 24 HIGH;
        DigitalWrite 52 LOW; DigitalWrite 50 LOW; DigitalWrite 48 LOW] /\
     fan_lines (pins (machine_of r)) = (Some LOW, Some HIGH) /\
     heating_lines (pins (machine_of r)) = (Some LOW, Some LOW, Some LOW)) /\
  (25 < 30 ->
     ovenState (machine_of r) = END_OF_BAKING /\
     events_of r =
       status_events "VENTILATION" 25 (inputTime m) ++
       concat (repeat pulse_events 5) ++ [LcdClear] /\
     heating_lines (pins (machine_of r)) = heating_lines (pins m) /\
     fan_lines (pins (machine_of r)) = fan_lines (pins m)).
Proof.
  apply (performVentilation_cases (quiet 25 0) 25 (set_ovenState VENTILATION booted)).
  - intros k. destruct k; reflexivity.
  - unfold in_int, INT_MIN, INT_MAX. lia.
  - reflexivity.
Defined.

(** C7.  In [END_OF_BAKING], whichever of the sixteen keys of [hexaKeys] the
    keypad reports, the handler (and so the whole pass through [loop]) ends
    in [INPUT_PHASE], and its last two display commands clear the display and
    print the temperature prompt: every key of the keymap has a code of at
    least that of '#'. *)
Theorem performEndOfBaking_any_key (io : world) (m : machine) (r c : nat) :
  (r < ROWS)%nat -> (c < COLS)%nat ->
  ovenState m = END_OF_BAKING ->
  pressed io (keyReads m) = Some (r, c) ->
  let res := performEndOfBaking io m in
  char_code "#" <= char_code (keymap r c) /\
  ovenState (machine_of res) = INPUT_PHASE /\
  events_of res =
    [DigitalWrite 22 LOW; DigitalWrite 24 LOW;
     DigitalWrite 52 LOW; DigitalWrite 50 LOW; DigitalWrite 48 LOW] ++
    status_events "END_OF_BAKING" (to_int (sensed io (samples m))) (inputTime m) ++
    [LcdClear; LcdPrint "Enter temp: "] /\
  loop io m = res.
Proof.
  intros Hr Hc Hst Hkey res.
  pose proof (keymap_code r c Hr Hc) as Hcode.
  assert (E : performEndOfBaking io m =
    (tt,
     set_ovenState INPUT_PHASE
       (set_keyReads (S (keyReads m))
          (set_samples (S (samples m)) (set_pins (all_off (pins m)) m))),
     [DigitalWrite 22 LOW; DigitalWrite 24 LOW;
      DigitalWrite 52 LOW; DigitalWrite 50 LOW; DigitalWrite 48 LOW] ++
     status_events "END_OF_BAKING" (to_int (sensed io (samples m))) (inputTime m) ++
     [LcdClear; LcdPrint "Enter temp: "])).
  { unfold performEndOfBaking, show_status. heating_literals. unfold bind. cbn. rewrite Hkey.
    assert (H0 : (char_code (keymap r c) =? 0) = false) by (apply Z.eqb_neq; lia).
    assert (H1 : (35 <=? char_code (keymap r c)) = true) by (apply Z.leb_le; lia).
    rewrite H0. cbn. change (char_code "#") with 35. rewrite H1. reflexivity. }
  subst res. split; [exact Hcode |].
  split; [now rewrite E |]. split; [now rewrite E |].
  unfold loop, bind. rewrite dispatch_handler, Hst, E.
  rewrite countdown_idle by (left; reflexivity). reflexivity.
Qed.

Lemma performEndOfBaking_any_key_witness :
  let io := scripted [] 25 [Some (3, 0)%nat] [] 0 in
  let m := set_ovenState END_OF_BAKING booted in
  let res := performEndOfBaking io m in
  char_code "#" <= char_code (keymap 3 0) /\
  ovenState (machine_of res) = INPUT_PHASE /\
  events_of res =
    [DigitalWrite 22 LOW; DigitalWrite 24 LOW;
     DigitalWrite 52 LOW; DigitalWrite 50 LOW; DigitalWrite 48 LOW] ++
    status_events "END_OF_BAKING" (to_int (sensed io (samples m))) (inputTime m) ++
    [LcdClear; LcdPrint "Enter temp: "] /\
  loop io m = res.
Proof.
  apply (performEndOfBaking_any_key (scripted [] 25 [Some (3, 0)%nat] [] 0)
           (set_ovenState END_OF_BAKING booted) 3 0).
  - unfold ROWS. lia.
  - unfold COLS. lia.
  - reflexivity.
  - reflexivity.
Defined.

(** C9.  In [INPUT_PHASE], in either entry phase, a '#' that arrives while
    [inputString] is empty changes neither the state nor the phase, nor the
    stored temperature and duration, nor the pending string, nor any pin, and
    prints nothing; the only globals the pass may touch are the key counter
    and, in the duration phase, the time stamp [startTime1]. *)
Theorem readInputs_empty_terminator (io : world) (m : machine) :
  ovenState m = INPUT_PHASE ->
  tempOrTime m = 0 \/ tempOrTime m = 1 ->
  inputString m = EmptyString ->
  pressed io (keyReads m) = key_hash ->
  let r := loop io m in
  ovenState (machine_of r) = INPUT_PHASE /\
  tempOrTime (machine_of r) = tempOrTime m /\
  inputTemperature (machine_of r) = inputTemperature m /\
  inputTime (machine_of r) = inputTime m /\
  inputString (machine_of r) = EmptyString /\
  pins (machine_of r) = pins m /\
  events_of r = [] /\
  r = readInputs io m.
Proof.
  intros Hst Hph Hemp Hkey r.
  assert (L : loop io m = readInputs io m /\
              (tempOrTime m = 0 ->
                 readInputs io m = (tt, set_keyReads (S (keyReads m)) m, [])) /\
              (tempOrTime m = 1 ->
                 readInputs io m =
                   (tt,
                    set_startTime1 (stamp io m)
                      (set_clockReads (S (clockReads m))
                         (set_keyReads (S (keyReads m)) m)), []))).
  { assert (R0 : tempOrTime m = 0 ->
                 readInputs io m = (tt, set_keyReads (S (keyReads m)) m, [])).
    { intros H0. unfold readInputs, bind, gets. cbn.
      rewrite H0. cbn. rewrite Hkey. unfold key_hash.
      change (keymap 3 2) with "#"%char. char_codes. cbn. rewrite Hemp. reflexivity. }
    assert (R1 : tempOrTime m = 1 ->
                 readInputs io m =
                   (tt,
                    set_startTime1 (stamp io m)
                      (set_clockReads (S (clockReads m))
                         (set_keyReads (S (keyReads m)) m)), [])).
    { intros H1. unfold readInputs, bind, gets. cbn.
      rewrite H1. cbn. rewrite Hkey. unfold key_hash.
      change (keymap 3 2) with "#"%char. char_codes. cbn. rewrite Hemp. reflexivity. }
    split; [| split; assumption].
    unfold loop, bind. rewrite dispatch_handler, Hst.
    destruct Hph as [H0 | H1].
    - rewrite (R0 H0). rewrite countdown_idle by (left; exact Hst). reflexivity.
    - rewrite (R1 H1). rewrite countdown_idle by (left; exact Hst). reflexivity. }
  destruct L as (Hl & R0 & R1). subst r. rewrite Hl.
  destruct Hph as [H0 | H1].
  - rewrite (R0 H0). cbn. repeat split; assumption.
  - rewrite (R1 H1). cbn. repeat split; assumption.
Qed.

Lemma readInputs_empty_terminator_witness :
  let io := scripted [] 25 [key_hash] [] 0 in
  let m := set_tempOrTime 1 booted in
  let r := loop io m in
  ovenState (machine_of r) = INPUT_PHASE /\
  tempOrTime (machine_of r) = tempOrTime m /\
  inputTemperature (machine_of r) = inputTemperature m /\
  inputTime (machine_of r) = inputTime m /\
  inputString (machine_of r) = EmptyString /\
  pins (machine_of r) = pins m /\
  events_of r = [] /\
  r = readInputs io m.
Proof.
  apply (readInputs_empty_terminator (scripted [] 25 [key_hash] [] 0)
           (set_tempOrTime 1 booted)).
  - reflexivity.
  - right. reflexivity.
  - reflexivity.
  - reflexivity.
Defined.

(** C4 as stated fails.  A bake at target 180 is entered on the keypad, one
    [HEATING] pass at 150 degrees switches all three elements on, and on the
    next pass the sensor reads 186 > 180 + 5: [performHeating] stops the fan
    and enters [COOLING], but the three heating-element lines are still
    HIGH when it returns. *)
Lemma performHeating_overshoot_elements_stay_on :
  let io := scripted [150; 150; 150] 186
              [key_1; key_8; key_0; key_hash; key_6; key_0; key_hash] [] 0 in
  let m := machine_of (run io 8 booted) in
  let r := performHeating io m in
  ovenState m = HEATING /\
  inputTemperature m = 180 /\
  (forall k, sensed io (samples m + k) = 186) /\
  186 > inputTemperature m + 5 /\
  ovenState (machine_of r) = COOLING /\
  fan_lines (pins (machine_of r)) = (Some LOW, Some LOW) /\
  heating_lines (pins (machine_of r)) = (Some HIGH, Some HIGH, Some HIGH) /\
  heating_lines (pins (machine_of r)) <> (Some LOW, Some LOW, Some LOW).
Proof.
  cbv zeta. repeat split; try (vm_compute; congruence).
  intros k. vm_compute. destruct k as [|[|[|k]]]; reflexivity.
Qed.

(** C4, amended.  In [HEATING] with every sample at [T > S + 5] the handler
    stops the fan, clears the display and enters [COOLING]; it writes no
    heating-element pin, so the three lines keep the levels they had.  The
    [COOLING] pass that follows, at the same [T], drives all three LOW. *)
Theorem performHeating_overshoot (io : world) (T : Z) (m : machine) :
  steady io T -> in_int T ->
  in_long (inputTemperature m) ->
  ovenState m = HEATING ->
  inputTemperature m + 5 < T ->
  let r := performHeating io m in
  ovenState (machine_of r) = COOLING /\
  events_of r =
    status_events "HEATING" T (inputTime m) ++
    [DigitalWrite 22 LOW; DigitalWrite 24 LOW; LcdClear] /\
  fan_lines (pins (machine_of r)) = (Some LOW, Some LOW) /\
  heating_lines (pins (machine_of r)) = heating_lines (pins m) /\
  heating_lines (pins (machine_of (performCooling io (machine_of r)))) =
    (Some LOW, Some LOW, Some LOW).
Proof.
  intros Hs Hi Hl Hst Hgt r. subst r.
  rewrite (performHeating_above io T Hs Hi m Hl Hgt).
  cbn [machine_of events_of fst snd].
  match goal with
  | |- context [performCooling io ?m1] =>
      rewrite (performCooling_above io T Hs Hi m1 Hl Hgt)
  end.
  cbn [machine_of events_of fst snd ovenState pins set_samples set_pins set_ovenState].
  unfold fan_lines, heating_lines.
  rewrite !lookup_insert. repeat case_decide; try lia.
  repeat split.
Qed.

Lemma performHeating_overshoot_witness :
  let io := quiet 186 0 in
  let m := set_inputTemperature 180 (set_ovenState HEATING booted) in
  let r := performHeating io m in
  ovenState (machine_of r) = COOLING /\
  events_of r =
    status_events "HEATING" 186 (inputTime m) ++
    [DigitalWrite 22 LOW; DigitalWrite 24 LOW; LcdClear] /\
  fan_lines (pins (machine_of r)) = (Some LOW, Some LOW) /\
  heating_lines (pins (machine_of r)) = heating_lines (pins m) /\
  heating_lines (pins (machine_of (performCooling io (machine_of r)))) =
    (Some LOW, Some LOW, Some LOW).
Proof.
  apply (performHeating_overshoot (quiet 186 0) 186
           (set_inputTemperature 180 (set_ovenState HEATING booted))).
  - intros k. destruct k; reflexivity.
  - unfold in_int, INT_MIN, INT_MAX. lia.
  - unfold in_long, LONG_MIN, LONG_MAX. cbn. lia.
  - reflexivity.
  - cbn. lia.
Defined.

(** C1 as stated fails.  The target 2147483647 is entered on the keypad and
    the sensor reads -10: the reading is below the target and the deficit is
    2147483657 >= 30, but the [long] subtraction wraps to a negative number
    and the handler switches on one element, not three. *)
Lemma performHeating_deficit_wraps :
  let io := scripted [] (-10)
              [key_2; key_1; key_4; key_7; key_4; key_8; key_3; key_6; key_4; key_7;
               key_hash; key_6; key_0; key_hash] [] 0 in
  let m := machine_of (run io 14 booted) in
  let r := performHeating io m in
  ovenState m = HEATING /\
  inputTemperature m = 2147483647 /\
  (forall k, sensed io k = -10) /\
  -10 < inputTemperature m /\
  30 <= inputTemperature m - (-10) /\
  heating_lines (pins (machine_of r)) = (Some HIGH, Some LOW, Some LOW) /\
  heating_lines (pins (machine_of r)) <> (Some HIGH, Some HIGH, Some HIGH).
Proof.
  cbv zeta. repeat split; try (vm_compute; congruence).
  intros k. destruct k; reflexivity.
Qed.

(** C1, amended.  In [HEATING] with every sample at [T < S], and the
    difference [S - T] within a [long], the handler drives the fan forward
    (pin 22 HIGH, pin 24 LOW), stays in [HEATING] and chooses the power by
    the deficit [d = S - T]: three elements when [d >= 30], two when
    [20 <= d < 30], one when [0 < d < 20]. *)
Theorem performHeating_power_by_deficit (io : world) (T : Z) (m : machine) :
  steady io T -> in_int T ->
  ovenState m = HEATING ->
  T < inputTemperature m ->
  inputTemperature m - T <= LONG_MAX ->
  let d := inputTemperature m - T in
  let r := performHeating io m in
  ovenState (machine_of r) = HEATING /\
  fan_lines (pins (machine_of r)) = (Some HIGH, Some LOW) /\
  (30 <= d ->
     heating_lines (pins (machine_of r)) = (Some HIGH, Some HIGH, Some HIGH) /\
     events_of r =
       status_events "HEATING" T (inputTime m) ++
       [DigitalWrite 22 HIGH; DigitalWrite 24 LOW;
        DigitalWrite 52 HIGH; DigitalWrite 50 HIGH; DigitalWrite 48 HIGH]) /\
  (20 <= d < 30 ->
     heating_lines (pins (machine_of r)) = (Some HIGH, Some HIGH, Some LOW) /\
     events_of r =
       status_events "HEATING" T (inputTime m) ++
       [DigitalWrite 22 HIGH; DigitalWrite 24 LOW;
        DigitalWrite 52 HIGH; DigitalWrite 50 HIGH; DigitalWrite 48 LOW]) /\
  (0 < d < 20 ->
     heating_lines (pins (machine_of r)) = (Some HIGH, Some LOW, Some LOW) /\
     events_of r =
       status_events "HEATING" T (inputTime m) ++
       [DigitalWrite 22 HIGH; DigitalWrite 24 LOW;
        DigitalWrite 52 HIGH; DigitalWrite 50 LOW; DigitalWrite 48 LOW]).
Proof.
  intros Hs Hi Hst Hlt Hno d r. subst r.
  rewrite (performHeating_below io T Hs Hi m Hlt).
  rewrite (to_long_id (inputTemperature m - T)) by (ranges; lia). fold d.
  cbn [machine_of events_of fst snd ovenState pins set_samples set_pins].
  unfold fan_lines, heating_lines.
  rewrite !lookup_insert. repeat case_decide; try lia.
  split; [exact Hst |]. split; [reflexivity |].
  split; [| split]; intros Hd.
  - assert (H30 : (30 <=? d) = true) by (apply Z.leb_le; lia).
    rewrite H30. cbn. split; reflexivity.
  - assert (H30 : (30 <=? d) = false) by (apply Z.leb_gt; lia).
    assert (H20 : (20 <=? d) = true) by (apply Z.leb_le; lia).
    rewrite H30, H20. cbn. split; reflexivity.
  - assert (H30 : (30 <=? d) = false) by (apply Z.leb_gt; lia).
    assert (H20 : (20 <=? d) = false) by (apply Z.leb_gt; lia).
    rewrite H30, H20. cbn. split; reflexivity.
Qed.

Lemma performHeating_power_by_deficit_witness :
  let io := quiet 150 0 in
  let m := set_inputTemperature 180 (set_ovenState HEATING booted) in
  let d := inputTemperature m - 150 in
  let r := performHeating io m in
  ovenState (machine_of r) = HEATING /\
  fan_lines (pins (machine_of r)) = (Some HIGH, Some LOW) /\
  (30 <= d ->
     heating_lines (pins (machine_of r)) = (Some HIGH, Some HIGH, Some HIGH) /\
     events_of r =
       status_events "HEATING" 150 (inputTime m) ++
       [DigitalWrite 22 HIGH; DigitalWrite 24 LOW;
        DigitalWrite 52 HIGH; DigitalWrite 50 HIGH; DigitalWrite 48 HIGH]) /\
  (20 <= d < 30 ->
     heating_lines (pins (machine_of r)) = (Some HIGH, Some HIGH, Some LOW) /\
     events_of r =
       status_events "HEATING" 150 (inputTime m) ++
       [DigitalWrite 22 HIGH; DigitalWrite 24 LOW;
        DigitalWrite 52 HIGH; DigitalWrite 50 HIGH; DigitalWrite 48 LOW]) /\
  (0 < d < 20 ->
     heating_lines (pins (machine_of r)) = (Some HIGH, Some LOW, Some LOW) /\
     events_of r =
       status_events "HEATING" 150 (inputTime m) ++
       [DigitalWrite 22 HIGH; DigitalWrite 24 LOW;
        DigitalWrite 52 HIGH; DigitalWrite 50 LOW; DigitalWrite 48 LOW]).
Proof.
  apply (performHeating_power_by_deficit (quiet 150 0) 150
           (set_inputTemperature 180 (set_ovenState HEATING booted))).
  - intros k. destruct k; reflexivity.
  - unfold in_int, INT_MIN, INT_MAX. lia.
  - reflexivity.
  - cbn. lia.
  - unfold LONG_MAX. cbn. lia.
Defined.

(** ** The countdown over whole passes *)

(** A pass that does not start in [INPUT_PHASE] leaves the countdown as it
    was or takes one second off a positive countdown; in the second case the
    pass ends in [VENTILATION] exactly when the countdown is now 0. *)
Lemma loop_countdown (io : world) (m : machine) :
  ovenState m <> INPUT_PHASE ->
  let m' := machine_of (loop io m) in
  inputTemperature m' = inputTemperature m /\
  (inputTime m' = inputTime m \/
   (0 < inputTime m /\ inputTime m' = to_long (inputTime m - 1) /\
    (inputTime m' = 0 -> ovenState m' = VENTILATION))).
Proof.
  intros Hst m'. subst m'.
  destruct (loop_halves io m) as [Hm _]. rewrite Hm.
  destruct (dispatch_entry io m Hst) as (_ & HT & Ht & _).
  set (m1 := machine_of (dispatch io m)) in *.
  destruct (state_eqb (ovenState m1) INPUT_PHASE) eqn:Es.
  { rewrite countdown_idle.
    - split; [exact HT | left; exact Ht].
    - left. destruct (ovenState m1); try reflexivity; discriminate Es. }
  assert (Hne : ovenState m1 <> INPUT_PHASE) by (intros E; rewrite E in Es; discriminate Es).
  destruct (Z_le_gt_dec (inputTime m1) 0) as [Hz | Hpos].
  { rewrite countdown_idle by (right; exact Hz).
    split; [exact HT | left; exact Ht]. }
  destruct (Z_lt_le_dec (to_long (stamp io m1 - startTime1 m1)) 1000) as [Hw | Hk].
  { rewrite (countdown_waiting io m1 Hne ltac:(lia) Hw).
    split; [exact HT | left; exact Ht]. }
  rewrite (countdown_tick io m1 Hne ltac:(lia) Hk).
  unfold machine_of. cbn [fst snd].
  destruct (to_long (inputTime m1 - 1) =? 0) eqn:E0.
  - cbn. split; [exact HT |]. right. rewrite <- Ht. repeat split; lia.
  - cbn. split; [exact HT |]. right. rewrite <- Ht. repeat split; lia.
Qed.

Lemma run_last (io : world) (n : nat) (m : machine) :
  machine_of (run io (S n) m) = machine_of (loop io (machine_of (run io n m))).
Proof.
  revert m. induction n as [|n IH]; intros m.
  - rewrite run_succ. reflexivity.
  - rewrite run_succ, IH, run_succ. reflexivity.
Qed.

(** C2.  Take a pass through [loop] that does not start in [INPUT_PHASE].
    If the pass changes the countdown (it can only take one second off) and
    the countdown is 0 afterwards, the state after the pass is [VENTILATION],
    whichever of the five states the pass started in. *)
Theorem countdown_zero_forces_ventilation (io : world) (m : machine) :
  ovenState m <> INPUT_PHASE ->
  let m' := machine_of (loop io m) in
  inputTime m' <> inputTime m ->
  inputTime m' = 0 ->
  ovenState m' = VENTILATION.
Proof.
  intros Hst m' Hch Hz.
  destruct (loop_countdown io m Hst) as (_ & [Hsame | (_ & _ & Hv)]).
  - contradiction.
  - exact (Hv Hz).
Qed.

Lemma countdown_zero_forces_ventilation_witness :
  let io := quiet 182 1000 in
  let m := set_inputTime 1 (set_inputTemperature 180 (set_ovenState BAKING booted)) in
  ovenState (machine_of (loop io m)) = VENTILATION.
Proof.
  apply (countdown_zero_forces_ventilation (quiet 182 1000)
           (set_inputTime 1 (set_inputTemperature 180 (set_ovenState BAKING booted)))).
  - discriminate.
  - vm_compute. discriminate.
  - vm_compute. reflexivity.
Defined.

(** With the countdown at 0, a pass that starts in one of the three
    regulating states ends in one of them, with the countdown still 0. *)
Lemma loop_zero_time (io : world) (m : machine) :
  inputTime m = 0 -> regulating (ovenState m) ->
  let m' := machine_of (loop io m) in
  inputTime m' = 0 /\ regulating (ovenState m') /\
  inputTemperature m' = inputTemperature m.
Proof.
  intros Hz Hreg m'. subst m'.
  destruct (loop_halves io m) as [Hm _]. rewrite Hm.
  assert (Hst : ovenState m <> INPUT_PHASE)
    by (destruct Hreg as [E | [E | E]]; rewrite E; discriminate).
  destruct (dispatch_entry io m Hst) as (_ & HT & Ht & _).
  assert (Hnext : regulating (ovenState (machine_of (dispatch io m)))).
  { rewrite dispatch_handler. unfold regulating in *.
    destruct Hreg as [E | [E | E]]; rewrite E.
    - pose proof (performHeating_next io m) as H. cbv zeta in H. rewrite E in H. tauto.
    - pose proof (performCooling_next io m) as H. cbv zeta in H. rewrite E in H. tauto.
    - pose proof (performBaking_next io m) as H. cbv zeta in H. rewrite E in H. tauto. }
  rewrite countdown_idle by (right; lia).
  change (machine_of (tt, machine_of (dispatch io m), [])) with (machine_of (dispatch io m)).
  repeat split; try assumption. lia.
Qed.

(** C3.  The sketch at the failing input: the setpoint 180 with duration 0
    is entered on the keypad while the oven is at 25 degrees.  The sixth pass
    stores the duration unvalidated and enters [HEATING] with the countdown
    at 0; the next pass, and fifty more, leave the state [HEATING] and never
    reach [VENTILATION], although the clock would show 100 s elapsed: the
    test [inputTime == 0] sits inside the guard [inputTime > 0]. *)
Lemma zero_duration_stays_heating :
  let io := scripted [] 25
              [key_1; key_8; key_0; key_hash; key_0; key_hash] [0] 100000 in
  let m := machine_of (run io 6 booted) in
  ovenState m = HEATING /\
  inputTemperature m = 180 /\
  inputTime m = 0 /\
  ovenState (machine_of (loop io m)) = HEATING /\
  ovenState (machine_of (loop io m)) <> VENTILATION /\
  ovenState (machine_of (run io 50 m)) = HEATING.
Proof.
  cbv zeta. repeat split; vm_compute; congruence.
Qed.

(** The same defect for every zero duration.  When '#' confirms a pending
    duration that reads as zero, the pass stores it and enters [HEATING]
    with the countdown at 0; the countdown block runs only while the
    countdown is positive, so after any number of passes the state is still
    [HEATING], [COOLING] or [BAKING] and the time never comes up. *)
Theorem zero_duration_never_vents (io : world) (m : machine) (n : nat) :
  ovenState m = INPUT_PHASE ->
  tempOrTime m = 1 ->
  pressed io (keyReads m) = key_hash ->
  inputString m <> EmptyString ->
  toInt (inputString m) = 0 ->
  let m1 := machine_of (loop io m) in
  let m' := machine_of (run io n m1) in
  ovenState m1 = HEATING /\
  inputTime m1 = 0 /\
  inputTemperature m1 = inputTemperature m /\
  regulating (ovenState m') /\
  ovenState m' <> VENTILATION /\
  inputTime m' = 0 /\
  inputTemperature m' = inputTemperature m.
Proof.
  intros Hst Hph Hkey Hne Hzero m1 m'.
  assert (E : loop io m =
    (tt,
     set_tempOrTime 0
       (set_ovenState HEATING
          (set_inputString EmptyString
             (set_inputTime 0
                (set_startTime1 (stamp io m)
                   (set_clockReads (S (clockReads m))
                      (set_keyReads (S (keyReads m)) m)))))),
     [LcdClear])).
  { assert (R : readInputs io m =
      (tt,
       set_tempOrTime 0
         (set_ovenState HEATING
            (set_inputString EmptyString
               (set_inputTime 0
                  (set_startTime1 (stamp io m)
                     (set_clockReads (S (clockReads m))
                        (set_keyReads (S (keyReads m)) m)))))),
       [LcdClear])).
    { unfold readInputs, bind, gets. cbn.
      rewrite Hph. cbn. rewrite Hkey. unfold key_hash.
      change (keymap 3 2) with "#"%char. char_codes. cbn.
      destruct (inputString m) as [|c rest] eqn:Es; [congruence |].
      cbn. rewrite Hzero. reflexivity. }
    unfold loop, bind. rewrite dispatch_handler, Hst, R.
    rewrite countdown_idle by (right; cbn; lia). reflexivity. }
  assert (H1 : ovenState m1 = HEATING /\ inputTime m1 = 0 /\
               inputTemperature m1 = inputTemperature m)
    by (subst m1; rewrite E; repeat split).
  destruct H1 as (Ho & Ht & HT).
  assert (Hrun : forall k x, inputTime x = 0 -> regulating (ovenState x) ->
            let y := machine_of (run io k x) in
            inputTime y = 0 /\ regulating (ovenState y) /\
            inputTemperature y = inputTemperature x).
  { induction k as [|k IH]; intros x Hx Hr.
    - cbn. auto.
    - cbv zeta. rewrite run_succ.
      destruct (loop_zero_time io x Hx Hr) as (Hx' & Hr' & HT').
      destruct (IH _ Hx' Hr') as (Hy & Hry & HTy).
      repeat split; try assumption. congruence. }
  destruct (Hrun n m1 Ht (or_introl Ho)) as (Hy & Hry & HTy). fold m' in Hy, Hry, HTy.
  repeat split; try assumption; try congruence.
  destruct Hry as [R | [R | R]]; rewrite R; discriminate.
Qed.

Lemma zero_duration_never_vents_witness :
  let io := scripted [] 25 [key_hash] [0] 100000 in
  let m := set_tempOrTime 1 (set_inputString "0" (set_inputTemperature 180 booted)) in
  let m1 := machine_of (loop io m) in
  let m' := machine_of (run io 20 m1) in
  ovenState m1 = HEATING /\
  inputTime m1 = 0 /\
  inputTemperature m1 = inputTemperature m /\
  regulating (ovenState m') /\
  ovenState m' <> VENTILATION /\
  inputTime m' = 0 /\
  inputTemperature m' = inputTemperature m.
Proof.
  apply (zero_duration_never_vents (scripted [] 25 [key_hash] [0] 100000)
           (set_tempOrTime 1 (set_inputString "0" (set_inputTemperature 180 booted))) 20).
  - reflexivity.
  - reflexivity.
  - reflexivity.
  - discriminate.
  - reflexivity.
Defined.

(** The sibling input: the same setpoint with duration 1.  Once a second
    has passed the countdown reaches 0 and the state is [VENTILATION]. *)
Lemma one_second_duration_vents :
  let io := scripted [] 25
              [key_1; key_8; key_0; key_hash; key_1; key_hash] [0] 100000 in
  let m := machine_of (run io 6 booted) in
  inputTemperature m = 180 /\
  inputTime m = 0 /\
  ovenState m = VENTILATION.
Proof.
  cbv zeta. repeat split; vm_compute; congruence.
Qed.

(** C8.  Start from a machine that is not in [INPUT_PHASE] and whose
    countdown is a non-negative [long] (the duration just entered).  Over
    any [n] passes during which the state does not return to [INPUT_PHASE],
    the countdown never becomes negative and never increases: for passes
    [i <= j <= n] the countdown after [j] passes is between 0 and the
    countdown after [i] passes. *)
Theorem countdown_nonnegative_nonincreasing (io : world) (m : machine) (n : nat) :
  in_long (inputTime m) ->
  0 <= inputTime m ->
  (forall k, (k < n)%nat -> ovenState (machine_of (run io k m)) <> INPUT_PHASE) ->
  forall i j, (i <= j <= n)%nat ->
    0 <= inputTime (machine_of (run io j m)) <= inputTime (machine_of (run io i m)).
Proof.
  intros Hl H0 Hst.
  assert (Hstep : forall k, (k < n)%nat ->
            0 <= inputTime (machine_of (run io k m)) <= LONG_MAX ->
            0 <= inputTime (machine_of (run io (S k) m))
              <= inputTime (machine_of (run io k m))).
  { intros k Hk Hr. rewrite run_last.
    destruct (loop_countdown io _ (Hst k Hk)) as (_ & [Hs | (Hp & Hd & _)]).
    - rewrite Hs. lia.
    - rewrite Hd. rewrite to_long_id by (ranges; lia). lia. }
  assert (Hall : forall k, (k <= n)%nat ->
            0 <= inputTime (machine_of (run io k m)) <= inputTime m).
  { induction k as [|k IH]; intros Hk.
    - cbn. lia.
    - specialize (IH ltac:(lia)).
      assert (Hr : 0 <= inputTime (machine_of (run io k m)) <= LONG_MAX)
        by (ranges; lia).
      specialize (Hstep k ltac:(lia) Hr). lia. }
  intros i j [Hij Hjn]. induction j as [|j IH].
  - assert (i = 0)%nat by lia. subst i. cbn. lia.
  - destruct (Nat.eq_dec i (S j)) as [-> | Hne].
    + specialize (Hall (S j) Hjn). lia.
    + specialize (IH ltac:(lia) ltac:(lia)).
      assert (Hr : 0 <= inputTime (machine_of (run io j m)) <= LONG_MAX).
      { specialize (Hall j ltac:(lia)). ranges. lia. }
      specialize (Hstep j ltac:(lia) Hr). lia.
Qed.

Lemma countdown_nonnegative_nonincreasing_witness :
  let io := scripted [] 182 [] [1000; 1500; 2000; 3000] 3000 in
  let m := set_inputTime 2 (set_inputTemperature 180 (set_ovenState BAKING booted)) in
  0 <= inputTime (machine_of (run io 4 m)) <= inputTime (machine_of (run io 1 m)).
Proof.
  apply (countdown_nonnegative_nonincreasing
           (scripted [] 182 [] [1000; 1500; 2000; 3000] 3000)
           (set_inputTime 2 (set_inputTemperature 180 (set_ovenState BAKING booted))) 4)
    with (i := 1%nat) (j := 4%nat).
  - unfold in_long, LONG_MIN, LONG_MAX. cbn. lia.
  - cbn. lia.
  - intros k Hk.
    destruct k as [|[|[|[|k]]]]; [vm_compute; discriminate .. | lia].
  - lia.
Defined.

(** * Further properties of the sketch *)

(** ** Actuators *)

(** [activateHeatingElements n] for [n] in 0..3 drives exactly the first [n]
    of the lines 52, 50, 48 HIGH and the others LOW, whatever the pins were,
    and leaves every other pin as it was. *)
Theorem activateHeatingElements_levels (n : Z) (m : machine) :
  0 <= n <= 3 ->
  let m' := machine_of (activateHeatingElements n m) in
  heating_lines (pins m') =
    (Some (if 1 <=? n then HIGH else LOW),
     Some (if 2 <=? n then HIGH else LOW),
     Some (if 3 <=? n then HIGH else LOW)) /\
  (forall pin, pin <> 52 -> pin <> 50 -> pin <> 48 -> pins m' !! pin = pins m !! pin) /\
  ovenState m' = ovenState m /\ same_entry m m'.
Proof.
  intros Hn m'. subst m'.
  assert (Hc : n = 0 \/ n = 1 \/ n = 2 \/ n = 3) by lia.
  destruct Hc as [-> | [-> | [-> | ->]]]; heating_literals; cbn;
    unfold heating_lines, same_entry; cbn;
    rewrite !lookup_insert; repeat case_decide; try lia;
    (split; [reflexivity |]);
    (split; [| repeat split]);
    intros pin H52 H50 H48; rewrite !lookup_insert_ne by congruence; reflexivity.
Qed.

Lemma activateHeatingElements_levels_witness :
  let m' := machine_of (activateHeatingElements 2 booted) in
  heating_lines (pins m') =
    (Some (if 1 <=? 2 then HIGH else LOW),
     Some (if 2 <=? 2 then HIGH else LOW),
     Some (if 3 <=? 2 then HIGH else LOW)) /\
  (forall pin, pin <> 52 -> pin <> 50 -> pin <> 48 ->
     pins m' !! pin = pins booted !! pin) /\
  ovenState m' = ovenState booted /\ same_entry booted m'.
Proof. apply (activateHeatingElements_levels 2 booted). lia. Defined.

(** The three fan commands set the pair (22, 24) to forward (HIGH, LOW),
    off (LOW, LOW) and reverse (LOW, HIGH); each writes these two pins only,
    and none of them passes through both lines HIGH when the fan is not
    already shorted, except a clockwise command issued while the fan runs
    in reverse. *)
Theorem fan_commands (m : machine) :
  fan_lines (pins (machine_of (turnFanClockwise m))) = (Some HIGH, Some LOW) /\
  fan_lines (pins (machine_of (turnOffFan m))) = (Some LOW, Some LOW) /\
  fan_lines (pins (machine_of (turnFanAntiClockwise m))) = (Some LOW, Some HIGH) /\
  (forall pin, pin <> 22 -> pin <> 24 ->
     pins (machine_of (turnFanClockwise m)) !! pin = pins m !! pin /\
     pins (machine_of (turnOffFan m)) !! pin = pins m !! pin /\
     pins (machine_of (turnFanAntiClockwise m)) !! pin = pins m !! pin) /\
  (fan_short (pins m) = false ->
     never_short (pins m) (events_of (turnOffFan m)) = true /\
     never_short (pins m) (events_of (turnFanAntiClockwise m)) = true /\
     (not_high (pins m !! 24) ->
        never_short (pins m) (events_of (turnFanClockwise m)) = true)).
Proof.
  cbn. unfold fan_lines.
  rewrite !lookup_insert. repeat case_decide; try lia.
  split; [reflexivity |]. split; [reflexivity |]. split; [reflexivity |].
  split.
  - intros pin H22 H24. rewrite !lookup_insert_ne by congruence. auto.
  - unfold fan_short, not_high. cbn.
    rewrite !lookup_insert. repeat case_decide; try lia.
    destruct (pins m !! 22) as [[|]|]; destruct (pins m !! 24) as [[|]|];
      cbn; intros Hfan; try discriminate Hfan;
      (split; [reflexivity | split; [reflexivity |]]);
      intros Hrev; try reflexivity; exfalso; apply Hrev; reflexivity.
Qed.

Lemma fan_commands_reverse_to_forward_shorts :
  let m := machine_of (turnFanAntiClockwise booted) in
  fan_short (pins m) = false /\
  never_short (pins m) (events_of (turnFanClockwise m)) = false.
Proof. split; vm_compute; reflexivity. Qed.

(** ** The remaining branches of the temperature handlers *)

(** [performCooling] with every sample at [T]: above [S + 5] it drives the
    fan in reverse with power 0 and stays; below [S] it stops the fan and
    enters [HEATING]; in the band it enters [BAKING] without any pin write.
    [S + 5] is required to fit a [long]. *)
Theorem performCooling_cases (io : world) (T : Z) (m : machine) :
  steady io T -> in_int T ->
  in_long (inputTemperature m) -> in_long (inputTemperature m + 5) ->
  ovenState m = COOLING ->
  let r := performCooling io m in
  (inputTemperature m + 5 < T ->
     ovenState (machine_of r) = COOLING /\
     fan_lines (pins (machine_of r)) = (Some LOW, Some HIGH) /\
     heating_lines (pins (machine_of r)) = (Some LOW, Some LOW, Some LOW) /\
     events_of r =
       status_events "COOLING" T (inputTime m) ++
       [DigitalWrite 22 LOW; DigitalWrite 24 HIGH;
        DigitalWrite 52 LOW; DigitalWrite 50 LOW; DigitalWrite 48 LOW]) /\
  (T < inputTemperature m ->
     ovenState (machine_of r) = HEATING /\
     fan_lines (pins (machine_of r)) = (Some LOW, Some LOW) /\
     heating_lines (pins (machine_of r)) = heating_lines (pins m) /\
     events_of r =
       status_events "COOLING" T (inputTime m) ++
       [DigitalWrite 22 LOW; DigitalWrite 24 LOW; LcdClear]) /\
  (inputTemperature m <= T <= inputTemperature m + 5 ->
     ovenState (machine_of r) = BAKING /\
     pins (machine_of r) = pins m /\
     events_of r = status_events "COOLING" T (inputTime m) ++ [LcdClear]).
Proof.
  intros Hs Hi Hl Hl5 Hst r. subst r. split; [| split]; intros HT.
  - rewrite (performCooling_above io T Hs Hi m Hl HT).
    cbn [machine_of events_of fst snd ovenState pins set_samples set_pins].
    unfold fan_lines, heating_lines.
    rewrite !lookup_insert. repeat case_decide; try lia. repeat split. exact Hst.
  - rewrite (performCooling_below io T Hs Hi m Hl5 HT).
    cbn [machine_of events_of fst snd ovenState pins set_samples set_pins set_ovenState].
    unfold fan_lines, heating_lines.
    rewrite !lookup_insert. repeat case_decide; try lia. repeat split.
  - rewrite (performCooling_band io T Hs Hi m HT). repeat split.
Qed.

Lemma performCooling_cases_witness :
  let io := quiet 170 0 in
  let m := set_inputTemperature 180 (set_ovenState COOLING booted) in
  let r := performCooling io m in
  (inputTemperature m + 5 < 170 ->
     ovenState (machine_of r) = COOLING /\
     fan_lines (pins (machine_of r)) = (Some LOW, Some HIGH) /\
     heating_lines (pins (machine_of r)) = (Some LOW, Some LOW, Some LOW) /\
     events_of r =
       status_events "COOLING" 170 (inputTime m) ++
       [DigitalWrite 22 LOW; DigitalWrite 24 HIGH;
        DigitalWrite 52 LOW; DigitalWrite 50 LOW; DigitalWrite 48 LOW]) /\
  (170 < inputTemperature m ->
     ovenState (machine_of r) = HEATING /\
     fan_lines (pins (machine_of r)) = (Some LOW, Some LOW) /\
     heating_lines (pins (machine_of r)) = heating_lines (pins m) /\
     events_of r =
       status_events "COOLING" 170 (inputTime m) ++
       [DigitalWrite 22 LOW; DigitalWrite 24 LOW; LcdClear]) /\
  (inputTemperature m <= 170 <= inputTemperature m + 5 ->
     ovenState (machine_of r) = BAKING /\
     pins (machine_of r) = pins m /\
     events_of r = status_events "COOLING" 170 (inputTime m) ++ [LcdClear]).
Proof.
  apply (performCooling_cases (quiet 170 0) 170
           (set_inputTemperature 180 (set_ovenState COOLING booted))).
  - intros k. destruct k; reflexivity.
  - unfold in_int, INT_MIN, INT_MAX. lia.
  - unfold in_long, LONG_MIN, LONG_MAX. cbn. lia.
  - unfold in_long, LONG_MIN, LONG_MAX. cbn. lia.
  - reflexivity.
Defined.



(** [performHeating] with every sample at [T] in the band [S, S + 5] enters
    [BAKING] and writes no pin: fan and elements stay as the last heating
    pass left them until [performBaking] runs. *)
Theorem performHeating_reaches_band (io : world) (T : Z) (m : machine) :
  steady io T -> in_int T ->
  inputTemperature m <= T <= inputTemperature m + 5 ->
  let r := performHeating io m in
  ovenState (machine_of r) = BAKING /\
  pins (machine_of r) = pins m /\
  events_of r = status_events "HEATING" T (inputTime m) ++ [LcdClear] /\
  pins (machine_of (performBaking io (machine_of r))) = all_off (pins m).
Proof.
  intros Hs Hi Hb r. subst r.
  rewrite (performHeating_band io T Hs Hi m Hb).
  cbn [machine_of events_of fst snd].
  match goal with
  | |- context [performBaking io ?m1] =>
      rewrite (performBaking_band io T Hs Hi m1 Hb)
  end.
  repeat split.
Qed.

Lemma performHeating_reaches_band_witness :
  let io := quiet 182 0 in
  let m := set_inputTemperature 180 (set_ovenState HEATING booted) in
  let r := performHeating io m in
  ovenState (machine_of r) = BAKING /\
  pins (machine_of r) = pins m /\
  events_of r = status_events "HEATING" 182 (inputTime m) ++ [LcdClear] /\
  pins (machine_of (performBaking io (machine_of r))) = all_off (pins m).
Proof.
  apply (performHeating_reaches_band (quiet 182 0) 182
           (set_inputTemperature 180 (set_ovenState HEATING booted))).
  - intros k. destruct k; reflexivity.
  - unfold in_int, INT_MIN, INT_MAX. lia.
  - cbn. lia.
Defined.

(** ** Input collection *)

Lemma loop_input (io : world) (m : machine) :
  ovenState m = INPUT_PHASE ->
  ovenState (machine_of (readInputs io m)) = INPUT_PHASE ->
  loop io m = readInputs io m.
Proof.
  intros Hst Hafter. unfold loop, bind. rewrite dispatch_handler, Hst.
  destruct (readInputs io m) as [[[] m1] e1] eqn:R.
  rewrite countdown_idle by (left; exact Hafter).
  now rewrite app_nil_r.
Qed.

(** In [INPUT_PHASE] a pass in which no key is pressed, or a key other than
    a digit or '#' (that is A, B, C, D or '*'), changes nothing but the
    count of keypad reads: no global, no pin, no output. *)
Theorem readInputs_ignores_other_keys (io : world) (m : machine) :
  ovenState m = INPUT_PHASE ->
  tempOrTime m = 0 \/ tempOrTime m = 1 ->
  let key := value_of (getKey io m) in
  key = NO_KEY \/ (is_digit key = false /\ key <> "#"%char) ->
  loop io m = (tt, set_keyReads (S (keyReads m)) m, []).
Proof.
  intros Hst Hph key Hkey.
  assert (R : readInputs io m = (tt, set_keyReads (S (keyReads m)) m, [])).
  { unfold readInputs. rewrite bind_gets.
    subst key. unfold value_of, getKey in Hkey. cbn [fst] in Hkey.
    assert (Hne : forall k : ascii, k <> "#"%char -> (char_code k =? 35) = false).
    { intros k Hh. apply Z.eqb_neq. intros Hc. apply Hh.
      destruct k as [[] [] [] [] [] [] [] []]; vm_compute in Hc; try discriminate Hc;
        reflexivity. }
    destruct Hph as [-> | ->]; cbn [Z.eqb Pos.eqb];
      unfold bind, getKey; cbn;
      set (k := match pressed io (keyReads m) with
                | Some (r, c) => keymap r c
                | None => NO_KEY
                end) in *;
      (destruct Hkey as [Hk | [Hd Hh]];
       [ rewrite Hk; reflexivity
       | unfold is_digit in Hd; char_codes; rewrite Hd, (Hne k Hh);
         destruct (char_code k =? 0); reflexivity ]). }
  rewrite loop_input; [exact R | exact Hst | rewrite R; exact Hst].
Qed.

Lemma readInputs_ignores_other_keys_witness :
  let io := scripted [] 25 [Some (0, 3)%nat] [] 0 in
  loop io booted = (tt, set_keyReads (S (keyReads booted)) booted, []).
Proof.
  apply (readInputs_ignores_other_keys (scripted [] 25 [Some (0, 3)%nat] [] 0) booted).
  - reflexivity.
  - left. reflexivity.
  - right. split; [reflexivity | discriminate].
Defined.

(** ** Whole passes *)

(** Outside [INPUT_PHASE] no handler touches what the user entered or the
    timer: the pending string, the target, the countdown, the entry phase
    and both time stamps are the same after the dispatch as before it,
    whatever the sensor and the keypad report. *)
Theorem handlers_keep_entry (io : world) (m : machine) :
  ovenState m <> INPUT_PHASE ->
  same_entry m (machine_of (dispatch io m)).
Proof. exact (dispatch_entry io m). Qed.

Lemma handlers_keep_entry_witness :
  same_entry (set_ovenState COOLING booted)
    (machine_of (dispatch (quiet 200 0) (set_ovenState COOLING booted))).
Proof.
  apply (handlers_keep_entry (quiet 200 0) (set_ovenState COOLING booted)).
  discriminate.
Defined.

(** A pass that does not start in [INPUT_PHASE] never changes the target
    and takes at most one second off the countdown, however far the clock
    has advanced since the last tick. *)
Theorem loop_at_most_one_second (io : world) (m : machine) :
  ovenState m <> INPUT_PHASE ->
  in_long (inputTime m) ->
  let m' := machine_of (loop io m) in
  inputTemperature m' = inputTemperature m /\
  (inputTime m' = inputTime m \/
   (0 < inputTime m /\ inputTime m' = inputTime m - 1)).
Proof.
  intros Hst Hl m'.
  destruct (loop_countdown io m Hst) as (HT & [Hs | (Hp & Hd & _)]).
  - auto.
  - split; [exact HT |]. right. split; [exact Hp |].
    fold m' in Hd. rewrite Hd. apply to_long_id. ranges. lia.
Qed.

Lemma loop_at_most_one_second_witness :
  let io := quiet 182 3600000 in
  let m := set_inputTime 60 (set_inputTemperature 180 (set_ovenState BAKING booted)) in
  let m' := machine_of (loop io m) in
  inputTemperature m' = inputTemperature m /\
  (inputTime m' = inputTime m \/
   (0 < inputTime m /\ inputTime m' = inputTime m - 1)).
Proof.
  apply (loop_at_most_one_second (quiet 182 3600000)
           (set_inputTime 60 (set_inputTemperature 180 (set_ovenState BAKING booted)))).
  - discriminate.
  - unfold in_long, LONG_MIN, LONG_MAX. cbn. lia.
Defined.

Lemma countdown_next (io : world) (m : machine) :
  let s := ovenState (machine_of (countdown io m)) in
  s = ovenState m \/ (s = VENTILATION /\ ovenState m <> INPUT_PHASE).
Proof.
  cbv zeta.
  destruct (state_eqb (ovenState m) INPUT_PHASE) eqn:Es.
  { rewrite countdown_idle; [left; reflexivity |].
    left. destruct (ovenState m); try reflexivity; discriminate Es. }
  assert (Hne : ovenState m <> INPUT_PHASE) by (intros E; rewrite E in Es; discriminate Es).
  destruct (Z_le_gt_dec (inputTime m) 0) as [Hz | Hpos].
  { rewrite countdown_idle by (right; exact Hz). left; reflexivity. }
  destruct (Z_lt_le_dec (to_long (stamp io m - startTime1 m)) 1000) as [Hw | Hk].
  { rewrite (countdown_waiting io m Hne ltac:(lia) Hw). left; reflexivity. }
  rewrite (countdown_tick io m Hne ltac:(lia) Hk).
  destruct (to_long (inputTime m - 1) =? 0); [right | left]; auto.
Qed.

Lemma readInputs_next (io : world) (m : machine) :
  let s := ovenState (machine_of (readInputs io m)) in
  s = ovenState m \/ s = HEATING.
Proof.
  unfold readInputs, bind, gets, getKey, millis, modify, lcd_print_char, lcd_clear,
    lcd_print, emit, ret.
  cbn. split_conds; auto.
Qed.

(** The transition graph of one pass.  From [INPUT_PHASE] a pass ends in
    [INPUT_PHASE], [HEATING] or [VENTILATION]; from the three regulating
    states in one of them or in [VENTILATION]; from [VENTILATION] in
    [VENTILATION] or [END_OF_BAKING]; from [END_OF_BAKING] in
    [END_OF_BAKING], [INPUT_PHASE] or [VENTILATION].  In particular
    [END_OF_BAKING] is entered only from [VENTILATION], and [INPUT_PHASE]
    only from [END_OF_BAKING]. *)
Theorem loop_transitions (io : world) (m : machine) :
  let s' := ovenState (machine_of (loop io m)) in
  match ovenState m with
  | INPUT_PHASE => s' = INPUT_PHASE \/ s' = HEATING \/ s' = VENTILATION
  | HEATING | COOLING | BAKING => regulating s' \/ s' = VENTILATION
  | VENTILATION => s' = VENTILATION \/ s' = END_OF_BAKING
  | END_OF_BAKING => s' = END_OF_BAKING \/ s' = INPUT_PHASE \/ s' = VENTILATION
  end.
Proof.
  cbv zeta. destruct (loop_halves io m) as [Hm _]. rewrite Hm.
  pose proof (countdown_next io (machine_of (dispatch io m))) as Hc. cbv zeta in Hc.
  rewrite dispatch_handler in *. unfold regulating.
  destruct (ovenState m) eqn:E.
  - pose proof (readInputs_next io m) as H. cbv zeta in H. rewrite E in H.
    destruct Hc as [Hc | [Hc _]]; rewrite Hc; tauto.
  - pose proof (performHeating_next io m) as H. cbv zeta in H. rewrite E in H.
    destruct Hc as [Hc | [Hc _]]; rewrite Hc; tauto.
  - pose proof (performCooling_next io m) as H. cbv zeta in H. rewrite E in H.
    destruct Hc as [Hc | [Hc _]]; rewrite Hc; tauto.
  - pose proof (performBaking_next io m) as H. cbv zeta in H. rewrite E in H.
    destruct Hc as [Hc | [Hc _]]; rewrite Hc; tauto.
  - pose proof (performEndOfBaking_next io m) as H. cbv zeta in H. rewrite E in H.
    destruct Hc as [Hc | [Hc Hne]]; rewrite Hc; tauto.
  - pose proof (performVentilation_next io m) as H. cbv zeta in H. rewrite E in H.
    destruct Hc as [Hc | [Hc _]]; rewrite Hc; tauto.
Qed.
